(** * Huts-style rental API: a shallow embedding of [main.py] and [schemas.py]

    The backend is a FastAPI application over a MongoDB document store.
    Python dictionaries (documents, query filters) are finite maps from
    strings to dynamically typed values; handlers are computations in a
    state-and-exception monad whose state is the module global [db]
    ([None] when no store is configured).  JSON numbers are rationals. *)

From Stdlib Require Import ZArith QArith Ascii String.
From stdpp Require Import gmap strings list fin_maps.

#[local] Set Warnings "-register-all".
#[local] Open Scope string_scope.
#[local] Open Scope list_scope.
#[local] Open Scope Z_scope.

(** ** Exceptions and outcomes *)

Inductive exn : Type :=
  | HTTPException (status_code : Z) (detail : string)
  | InvalidId
  | TypeError
  | ValueError
  | ValidationError
  | StoreUnavailable
  | PyMongoError (msg : string).

Inductive outcome (A : Type) : Type :=
  | Return (a : A)
  | Raise (e : exn).
Arguments Return {A} a.
Arguments Raise {A} e.

#[global] Instance outcome_ret : MRet outcome := fun _ a => Return a.
#[global] Instance outcome_bind : MBind outcome := fun _ _ f m =>
  match m with
  | Return a => f a
  | Raise e => Raise e
  end.

(** [datetime.date] *)
Record date : Type := Date { year : Z; month : Z; day : Z }.

(** Python truthiness of an [Optional[str]]: [None] and [""] are falsy. *)
Definition truthy (o : option string) : bool :=
  match o with
  | Some s => negb (String.eqb s "")
  | None => false
  end.

(** [bson.ObjectId]: a 12-byte identifier, here the number it encodes. *)
Definition oid : Type := N.
#[global] Instance oid_eq_dec : EqDecision oid := N.eq_dec.

(** ** Values held by dictionaries *)

Inductive value : Type :=
  | VNone
  | VInt (z : Z)
  | VFloat (x : Q)
  | VStr (s : string)
  | VDate (d : date)
  | VObjectId (o : oid)
  | VList (l : list value)
  | VDict (d : gmap string value).

Abbreviation document := (gmap string value).

(** ** The filter built by [list_properties] (main.py, lines 113-128) *)

(** [{"$regex": pattern, "$options": "i"}] *)
Definition regex_i (pattern : string) : value :=
  VDict {[ "$regex" := VStr pattern; "$options" := VStr "i" ]}.

(** The value of the local [filter_dict] when the store is queried. *)
Definition filter_dict (q location : option string)
    (min_price max_price : option Q) : document :=
  let filter_dict : document := ∅ in
  let filter_dict :=
    if truthy q then
      <["$or" := VList [ VDict {[ "title" := regex_i (default "" q) ]};
                         VDict {[ "description" := regex_i (default "" q) ]};
                         VDict {[ "location" := regex_i (default "" q) ]} ]]>
        filter_dict
    else filter_dict in
  let filter_dict :=
    if truthy location then
      <["location" := regex_i (default "" location)]> filter_dict
    else filter_dict in
  let price_filter : document := ∅ in
  let price_filter :=
    match min_price with
    | Some m => <["$gte" := VFloat m]> price_filter
    | None => price_filter
    end in
  let price_filter :=
    match max_price with
    | Some m => <["$lte" := VFloat m]> price_filter
    | None => price_filter
    end in
  if decide (price_filter = ∅) then filter_dict
  else <["price_per_night" := VDict price_filter]> filter_dict.

(** ** The document store *)

(** The state behind a configured connection: the database name, its
    collections in insertion order, the number of identifiers the driver
    has generated so far, and a script saying which of the coming driver
    calls fail ([Some msg]: the call raises [PyMongoError msg] and leaves
    the collections as they were). *)
Record Database : Type := {
  db_name : string;
  collections : gmap string (list document);
  generated : nat;
  faults : list (option string)
}.

Definition with_faults (fs : list (option string)) (d : Database) : Database :=
  {| db_name := db_name d; collections := collections d;
     generated := generated d; faults := fs |}.

(** [db[c]] *)
Definition collection (d : Database) (c : string) : list document :=
  default [] (collections d !! c).

(** ** Handlers: state is the module global [db] *)

Definition App (A : Type) : Type :=
  option Database → outcome A * option Database.

#[global] Instance App_ret : MRet App := fun _ a db => (Return a, db).
#[global] Instance App_bind : MBind App := fun _ _ f m db =>
  match m db with
  | (Return a, db') => f a db'
  | (Raise e, db') => (Raise e, db')
  end.

Definition raise {A} (e : exn) : App A := fun db => (Raise e, db).

Definition lift {A} (o : outcome A) : App A := fun db => (o, db).

(** [db is None] *)
Definition db_is_None : App bool := fun db =>
  (Return (if db is None then true else false), db).

(** [try: body except Exception as e: handler e] *)
Definition try_except {A} (body : App A) (handler : exn → App A) : App A :=
  fun db =>
    match body db with
    | (Return a, db') => (Return a, db')
    | (Raise e, db') => handler e db'
    end.

(** ** The driver (pymongo, bson) and the Python builtins used *)

(** What the program takes from its libraries and its environment. *)
Class Runtime : Type := {
  (** [ObjectId(s)]; [None] stands for [InvalidId] being raised. *)
  ObjectId : string → option oid;
  (** The n-th identifier generated by the driver. *)
  new_ObjectId : nat → oid;
  (** [str(v)] *)
  py_str : value → string;
  (** [float(s)] and [int(s)] on strings; [None] stands for [ValueError]. *)
  float_of_str : string → option Q;
  int_of_str : string → option Z;
  (** Whether a document satisfies a query filter, as the store decides it. *)
  matches : document → document → bool;
  (** [os.getenv("DATABASE_URL")] *)
  DATABASE_URL : option string
}.

Section Backend.
Context {runtime : Runtime}.

(** The store after one more driver call: the fault script has moved on. *)
Definition tick (d : Database) : Database := with_faults (tail (faults d)) d.

(** One round trip to the store: it consumes the next entry of the fault
    script, if there is one.  Subscripting [db] when it is [None] raises
    [TypeError]. *)
Definition driver_call {A} (op : Database → A * Database) : App A :=
  fun db =>
    match db with
    | None => (Raise TypeError, None)
    | Some d =>
      match head (faults d) with
      | Some (Some msg) => (Raise (PyMongoError msg), Some (tick d))
      | _ => let '(a, d') := op (tick d) in (Return a, Some d')
      end
    end.

(** The next [n] driver calls succeed. *)
Definition healthy (n : nat) (d : Database) : bool :=
  forallb (fun f => if f is None then true else false) (take n (faults d)).

(** The driver gives each inserted document a generated [_id] (documents
    handed over by this program never carry one). *)
Definition store (c : string) (docs : list document) (d : Database)
    : list oid * Database :=
  let ids := new_ObjectId <$> seq (generated d) (length docs) in
  (ids,
   {| db_name := db_name d;
      collections :=
        <[c := collection d c
               ++ zip_with (fun o doc => <["_id" := VObjectId o]> doc) ids docs]>
          (collections d);
      generated := (generated d + length docs)%nat;
      faults := faults d |}).

(** [db[c].count_documents({})] *)
Definition count_documents (c : string) : App nat :=
  driver_call (fun d => (length (collection d c), d)).

(** [db[c].insert_many(docs)] *)
Definition insert_many (c : string) (docs : list document) : App (list oid) :=
  driver_call (store c docs).

(** [db[c].insert_one(doc).inserted_id] *)
Definition insert_one (c : string) (doc : document) : App oid :=
  driver_call (fun d =>
    let '(_, d') := store c [doc] d in (new_ObjectId (generated d), d')).

Definition has_id (o : oid) (doc : document) : bool :=
  match doc !! "_id" with
  | Some (VObjectId o') => bool_decide (o' = o)
  | _ => false
  end.

(** [db[c].find_one({"_id": o})] *)
Definition find_one (c : string) (o : oid) : App (option document) :=
  driver_call (fun d => (List.find (has_id o) (collection d c), d)).

(** [db[c].find(filter)] *)
Definition find (c : string) (flt : document) : App (list document) :=
  driver_call (fun d => (List.filter (matches flt) (collection d c), d)).

(** [db.list_collection_names()] *)
Definition list_collection_names : App (list string) :=
  driver_call (fun d => ((map_to_list (collections d)).*1, d)).

(** [float(v)]: exact here; Python rounds an int beyond 2^53, which the
    statements about views exclude ([float_exact]). *)
Definition py_float (v : value) : outcome Q :=
  match v with
  | VInt z => Return (inject_Z z)
  | VFloat x => Return x
  | VStr s => if float_of_str s is Some x then Return x else Raise ValueError
  | _ => Raise TypeError
  end.

(** [int(v)]: a float is truncated towards zero. *)
Definition py_int (v : value) : outcome Z :=
  match v with
  | VInt z => Return z
  | VFloat x => Return (Z.quot (Qnum x) (Z.pos (Qden x)))
  | VStr s => if int_of_str s is Some z then Return z else Raise ValueError
  | _ => Raise TypeError
  end.

(** ** schemas.py *)

Record Property : Type := {
  title : string;
  description : string;
  location : string;
  country : option string;
  price_per_night : Q;
  max_guests : Z;
  bedrooms : Z;
  bathrooms : Z;
  rating : option Q;
  review_count : option Z;
  amenities : list string;
  image_urls : list string
}.

Record Booking : Type := {
  property_id : string;
  name : string;
  email : string;
  phone : option string;
  check_in : date;
  check_out : date;
  guests : Z;
  message : option string
}.

(** A request body after JSON decoding and type coercion: a field is [None]
    when the body omits it; a field of an [Optional] type that is sent as
    [null] is [Some None]. *)
Record PropertyPayload : Type := {
  in_title : option string;
  in_description : option string;
  in_location : option string;
  in_country : option (option string);
  in_price_per_night : option Q;
  in_max_guests : option Z;
  in_bedrooms : option Z;
  in_bathrooms : option Z;
  in_rating : option (option Q);
  in_review_count : option (option Z);
  in_amenities : option (list string);
  in_image_urls : option (list string)
}.

Record BookingPayload : Type := {
  in_property_id : option string;
  in_name : option string;
  in_email : option string;
  in_phone : option (option string);
  in_check_in : option date;
  in_check_out : option date;
  in_guests : option Z;
  in_message : option (option string)
}.

(** [Field(..., c)]: the field is required and must satisfy [c]. *)
Definition required {A} (c : A → bool) (field : option A) : option A :=
  match field with
  | Some x => if c x then Some x else None
  | None => None
  end.

(** [Field(dflt, c)]: the default is taken as it is, a sent value must
    satisfy [c]. *)
Definition optional {A} (dflt : A) (c : A → bool) (field : option A)
    : option A :=
  match field with
  | Some x => if c x then Some x else None
  | None => Some dflt
  end.

Definition any {A} (_ : A) : bool := true.
Definition ge (bound : Z) (x : Z) : bool := bound <=? x.
Definition ge_float (bound : Q) (x : Q) : bool := Qle_bool bound x.
Definition le_float (bound : Q) (x : Q) : bool := Qle_bool x bound.
(** A constraint on an [Optional] field does not apply to [None]. *)
Definition on_some {A} (c : A → bool) (x : option A) : bool :=
  if x is Some y then c y else true.

(** Validation of a body against [Property]; [None] is a validation error. *)
Definition validate_Property (p : PropertyPayload) : option Property :=
  title ← required any (in_title p);
  description ← required any (in_description p);
  location ← required any (in_location p);
  country ← optional None any (in_country p);
  price_per_night ← required (ge_float 0) (in_price_per_night p);
  max_guests ← required (ge 1) (in_max_guests p);
  bedrooms ← optional 1 (ge 0) (in_bedrooms p);
  bathrooms ← optional 1 (ge 0) (in_bathrooms p);
  rating ← optional None
             (on_some (fun r => ge_float 0 r && le_float 5 r)) (in_rating p);
  review_count ← optional (Some 0) any (in_review_count p);
  amenities ← optional [] any (in_amenities p);
  image_urls ← optional [] any (in_image_urls p);
  Some {| title := title; description := description; location := location;
          country := country; price_per_night := price_per_night;
          max_guests := max_guests; bedrooms := bedrooms;
          bathrooms := bathrooms; rating := rating;
          review_count := review_count; amenities := amenities;
          image_urls := image_urls |}.

(** Validation of a body against [Booking]. *)
Definition validate_Booking (b : BookingPayload) : option Booking :=
  property_id ← required any (in_property_id b);
  name ← required any (in_name b);
  email ← required any (in_email b);
  phone ← optional None any (in_phone b);
  check_in ← required any (in_check_in b);
  check_out ← required any (in_check_out b);
  guests ← required (ge 1) (in_guests b);
  message ← optional None any (in_message b);
  Some {| property_id := property_id; name := name; email := email;
          phone := phone; check_in := check_in; check_out := check_out;
          guests := guests; message := message |}.

(** [BaseModel]: a model can be dumped to a dictionary of its fields. *)
Class BaseModel (A : Type) : Type := model_dump : A → document.

#[global] Instance Property_model : BaseModel Property := fun p =>
  {[ "title" := VStr (title p);
     "description" := VStr (description p);
     "location" := VStr (location p);
     "country" := from_option VStr VNone (country p);
     "price_per_night" := VFloat (price_per_night p);
     "max_guests" := VInt (max_guests p);
     "bedrooms" := VInt (bedrooms p);
     "bathrooms" := VInt (bathrooms p);
     "rating" := from_option VFloat VNone (rating p);
     "review_count" := from_option VInt VNone (review_count p);
     "amenities" := VList (VStr <$> amenities p);
     "image_urls" := VList (VStr <$> image_urls p) ]}.

#[global] Instance Booking_model : BaseModel Booking := fun b =>
  {[ "property_id" := VStr (property_id b);
     "name" := VStr (name b);
     "email" := VStr (email b);
     "phone" := from_option VStr VNone (phone b);
     "check_in" := VDate (check_in b);
     "check_out" := VDate (check_out b);
     "guests" := VInt (guests b);
     "message" := from_option VStr VNone (message b) ]}.

(** ** database.py *)

(** Modelled from the spec: [database.py] ([db], [create_document],
    [get_documents]) is not among the sources.  Section 4.2: [insert]
    stores the document and returns a newly generated identifier, and fails
    with [StoreUnavailable] when there is no connection. *)
Definition create_document `{BaseModel A} (collection_name : string)
    (data : A) : App string :=
  none ← db_is_None;
  if (none : bool) then raise StoreUnavailable
  else
    inserted_id ← insert_one collection_name (model_dump data);
    mret (py_str (VObjectId inserted_id)).

(** Modelled from the spec: section 4.2, [find] returns the matching
    documents in the store's order, and the empty sequence when there is no
    connection. *)
Definition get_documents (collection_name : string) (filter_dict : document)
    : App (list document) :=
  none ← db_is_None;
  if (none : bool) then mret []
  else find collection_name filter_dict.

(** ** main.py *)

Record PropertyOut : Type := {
  out_id : string;
  out_title : string;
  out_description : string;
  out_location : string;
  out_country : option string;
  out_price_per_night : Q;
  out_max_guests : Z;
  out_bedrooms : Z;
  out_bathrooms : Z;
  out_rating : option Q;
  out_review_count : option Z;
  out_amenities : list string;
  out_image_urls : list string
}.

(** Validation of the arguments given to [PropertyOut(...)]: a value of the
    declared type is taken as it is, an int for a float field is converted.
    What the validation library makes of a value of another type (a whole
    float for an int field, a numeric string) is not modelled: here such a
    value is a validation error, and the statements about views below are
    about documents whose fields have the declared types ([typed]). *)
Definition as_str (v : value) : outcome string :=
  if v is VStr s then Return s else Raise ValidationError.

Definition as_optional_str (v : value) : outcome (option string) :=
  match v with
  | VNone => Return None
  | VStr s => Return (Some s)
  | _ => Raise ValidationError
  end.

Definition as_optional_float (v : value) : outcome (option Q) :=
  match v with
  | VNone => Return None
  | VFloat x => Return (Some x)
  | VInt z => Return (Some (inject_Z z))
  | _ => Raise ValidationError
  end.

Definition as_optional_int (v : value) : outcome (option Z) :=
  match v with
  | VNone => Return None
  | VInt z => Return (Some z)
  | _ => Raise ValidationError
  end.

Definition as_str_list (v : value) : outcome (list string) :=
  if v is VList l then mapM as_str l else Raise ValidationError.

(** [d.get(key, dflt)] *)
Definition get (key : string) (dflt : value) (d : document) : value :=
  default dflt (d !! key).

(** The document-to-view conversion, written out twice in the source
    (lines 133-147 and 164-178) with the same text. *)
Definition property_out (d : document) : outcome PropertyOut :=
  let id := py_str (get "_id" VNone d) in
  price_per_night ← py_float (get "price_per_night" (VInt 0) d);
  max_guests ← py_int (get "max_guests" (VInt 1) d);
  bedrooms ← py_int (get "bedrooms" (VInt 1) d);
  bathrooms ← py_int (get "bathrooms" (VInt 1) d);
  title ← as_str (get "title" (VStr "") d);
  description ← as_str (get "description" (VStr "") d);
  location ← as_str (get "location" (VStr "") d);
  country ← as_optional_str (get "country" VNone d);
  rating ← as_optional_float (get "rating" VNone d);
  review_count ← as_optional_int (get "review_count" (VInt 0) d);
  amenities ← as_str_list (get "amenities" (VList []) d);
  image_urls ← as_str_list (get "image_urls" (VList []) d);
  Return {| out_id := id; out_title := title;
            out_description := description; out_location := location;
            out_country := country; out_price_per_night := price_per_night;
            out_max_guests := max_guests; out_bedrooms := bedrooms;
            out_bathrooms := bathrooms; out_rating := rating;
            out_review_count := review_count; out_amenities := amenities;
            out_image_urls := image_urls |}.

Definition samples : list document :=
  [ {[ "title" := VStr "Cozy Mountain Hut";
       "description" := VStr "A charming wooden hut nestled in the mountains with breathtaking views.";
       "location" := VStr "Aspen, Colorado";
       "country" := VStr "USA";
       "price_per_night" := VInt 220;
       "max_guests" := VInt 4;
       "bedrooms" := VInt 2;
       "bathrooms" := VInt 1;
       "rating" := VFloat (48 # 10);
       "review_count" := VInt 128;
       "amenities" := VList [VStr "Fireplace"; VStr "Hot tub"; VStr "Wi-Fi"; VStr "Kitchen"];
       "image_urls" := VList
         [ VStr "https://images.unsplash.com/photo-1512917774080-9991f1c4c750";
           VStr "https://images.unsplash.com/photo-1505691723518-36a5ac3b2d95" ] ]};
    {[ "title" := VStr "Lakeside Cabin Retreat";
       "description" := VStr "Quiet cabin right on the lake. Perfect for fishing and sunsets.";
       "location" := VStr "Lake Tahoe, California";
       "country" := VStr "USA";
       "price_per_night" := VInt 180;
       "max_guests" := VInt 5;
       "bedrooms" := VInt 2;
       "bathrooms" := VInt 2;
       "rating" := VFloat (46 # 10);
       "review_count" := VInt 86;
       "amenities" := VList [VStr "Canoe"; VStr "Deck"; VStr "Grill"; VStr "Parking"];
       "image_urls" := VList
         [ VStr "https://images.unsplash.com/photo-1501183638710-841dd1904471";
           VStr "https://images.unsplash.com/photo-1500530855697-b586d89ba3ee" ] ]};
    {[ "title" := VStr "Nordic Forest Lodge";
       "description" := VStr "Modern Scandinavian lodge surrounded by pine forests.";
       "location" := VStr "Rovaniemi, Finland";
       "country" := VStr "Finland";
       "price_per_night" := VInt 260;
       "max_guests" := VInt 6;
       "bedrooms" := VInt 3;
       "bathrooms" := VInt 2;
       "rating" := VFloat (49 # 10);
       "review_count" := VInt 203;
       "amenities" := VList [VStr "Sauna"; VStr "Heated floors"; VStr "Wi-Fi"; VStr "Ski-in"];
       "image_urls" := VList
         [ VStr "https://images.unsplash.com/photo-1519999482648-25049ddd37b1";
           VStr "https://images.unsplash.com/photo-1544989164-31dc3c645987" ] ]} ].

(** [@app.on_event("startup")] *)
Definition seed_sample_properties : App unit :=
  none ← db_is_None;
  if (none : bool) then mret ()
  else
    try_except
      (count ← count_documents "property";
       if (count =? 0)%nat then
         if samples is [] then mret ()
         else insert_many "property" samples;; mret ()
       else mret ())
      (fun _ => mret ()).

Definition root : App string := mret "Huts-style backend running".

Definition list_properties (q location : option string)
    (min_price max_price : option Q) : App (list PropertyOut) :=
  none ← db_is_None;
  if (none : bool) then mret []
  else
    docs ← get_documents "property"
              (filter_dict q location min_price max_price);
    lift (mapM property_out docs).

Definition create_property (prop : Property) : App string :=
  create_document "property" prop.

Definition get_property (property_id : string) : App PropertyOut :=
  none ← db_is_None;
  if (none : bool) then raise (HTTPException 404 "Not found")
  else
    o ← lift (if ObjectId property_id is Some o then Return o
              else Raise InvalidId);
    doc ← find_one "property" o;
    match doc with
    | None => raise (HTTPException 404 "Not found")
    | Some doc =>
      if decide (doc = ∅) then raise (HTTPException 404 "Not found")
      else lift (property_out doc)
    end.

(** Returns the inserted id; the handler pairs it with ["received"]. *)
Definition create_booking (booking : Booking) : App (string * string) :=
  inserted_id ← create_document "booking" booking;
  mret (inserted_id, "received").

Record diagnostics : Type := {
  backend : string;
  database : string;
  database_url : option string;
  database_name : option string;
  connection_status : string;
  collection_names : list string
}.

(** [str(e)] *)
Definition str_exn (e : exn) : string :=
  match e with
  | PyMongoError msg => msg
  | HTTPException _ detail => detail
  | _ => ""
  end.

(** The message is cut with [str(e)[:50]]: 50 characters in Python, 50
    bytes here, which is the same for an ASCII message. *)
Definition test_database : App diagnostics := fun db =>
  match db with
  | None =>
    (Return {| backend := "✅ Running"; database := "❌ Not Available";
               database_url := None; database_name := None;
               connection_status := "Not Connected";
               collection_names := [] |}, None)
  | Some d =>
    let url := if truthy DATABASE_URL then "✅ Set" else "❌ Not Set" in
    try_except
      (names ← list_collection_names;
       mret {| backend := "✅ Running"; database := "✅ Connected & Working";
               database_url := Some url; database_name := Some (db_name d);
               connection_status := "Connected";
               collection_names := take 10 names |})
      (fun e =>
       mret {| backend := "✅ Running";
               database := "❌ Error: " +:+ String.substring 0 50 (str_exn e);
               database_url := Some url; database_name := Some (db_name d);
               connection_status := "Connected";
               collection_names := [] |})
      db
  end.

(** ** The HTTP layer (FastAPI) *)

Inductive content : Type :=
  | Message (message : string)
  | PropertyList (l : list PropertyOut)
  | PropertyView (p : PropertyOut)
  | InsertedId (id : string)
  | BookingReceived (id : string) (status : string)
  | Diagnostics (d : diagnostics).

Inductive response : Type :=
  | JSONResponse (status_code : Z) (body : content)
  | ErrorResponse (status_code : Z) (detail : string)
  | ValidationErrorResponse.

Definition status_code_of (r : response) : Z :=
  match r with
  | JSONResponse c _ => c
  | ErrorResponse c _ => c
  | ValidationErrorResponse => 422
  end.

(** A returned value is rendered with the route's status code, an
    [HTTPException] with its own, any other exception as a 500. *)
Definition respond {A} (status_code : Z) (render : A → content)
    (handler : App A) (db : option Database) : response * option Database :=
  match handler db with
  | (Return a, db') => (JSONResponse status_code (render a), db')
  | (Raise (HTTPException c detail), db') => (ErrorResponse c detail, db')
  | (Raise _, db') => (ErrorResponse 500 "Internal Server Error", db')
  end.

Inductive request : Type :=
  | GET_root
  | GET_properties (q location : option string) (min_price max_price : option Q)
  | POST_properties (body : PropertyPayload)
  | GET_property (property_id : string)
  | POST_bookings (body : BookingPayload)
  | GET_test.

(** A body that fails validation is answered with 422 before the handler
    is entered. *)
Definition handle (r : request) (db : option Database)
    : response * option Database :=
  match r with
  | GET_root => respond 200 Message root db
  | GET_properties q location min_price max_price =>
    respond 200 PropertyList (list_properties q location min_price max_price) db
  | POST_properties body =>
    match validate_Property body with
    | Some prop => respond 201 InsertedId (create_property prop) db
    | None => (ValidationErrorResponse, db)
    end
  | GET_property property_id =>
    respond 200 PropertyView (get_property property_id) db
  | POST_bookings body =>
    match validate_Booking body with
    | Some booking =>
      respond 201 (fun r => BookingReceived r.1 r.2) (create_booking booking) db
    | None => (ValidationErrorResponse, db)
    end
  | GET_test => respond 200 Diagnostics test_database db
  end.

(** ** The process *)

(** The states of the process: the seeder runs once, then requests are
    served in any order. *)
Inductive reachable (db0 : option Database) : option Database → Prop :=
  | reachable_startup :
      reachable db0 (seed_sample_properties db0).2
  | reachable_request db r :
      reachable db0 db → reachable db0 (handle r db).2.

(** The [property] collection behind [db]; empty when there is no store. *)
Definition properties (db : option Database) : list document :=
  if db is Some d then collection d "property" else [].

(** ** Vocabulary of the statements *)

(** The number a value stands for, if it is one. *)
Definition number (v : value) : option Q :=
  match v with
  | VInt z => Some (inject_Z z)
  | VFloat x => Some x
  | _ => None
  end.

(** The invariant of section 3 on a stored property. *)
Definition property_invariant (d : document) : bool :=
  match number (get "price_per_night" VNone d), get "max_guests" VNone d with
  | Some price, VInt g =>
    Qle_bool 0 price && (1 <=? g)
    && match get "rating" VNone d with
       | VNone => true
       | r => if number r is Some x then Qle_bool 0 x && Qle_bool x 5
              else false
       end
  | _, _ => false
  end.


Definition price_clause (min_price max_price : option Q) : option value :=
  match min_price, max_price with
  | None, None => None
  | Some a, None => Some (VDict {[ "$gte" := VFloat a ]})
  | None, Some b => Some (VDict {[ "$lte" := VFloat b ]})
  | Some a, Some b => Some (VDict {[ "$gte" := VFloat a; "$lte" := VFloat b ]})
  end.

(** The fields by which section 6 names a sample. *)
Definition headline (d : document) : list value :=
  [ get "title" VNone d; get "location" VNone d; get "country" VNone d;
    get "price_per_night" VNone d; get "max_guests" VNone d;
    get "bedrooms" VNone d; get "bathrooms" VNone d; get "rating" VNone d;
    get "review_count" VNone d ].

(** What a successful validation says of the body: the fields sent are
    taken over, the optional fields omitted get their defaults ... *)
Definition filled (body : PropertyPayload) (prop : Property) : Prop :=
  in_title body = Some (title prop)
  ∧ in_description body = Some (description prop)
  ∧ in_location body = Some (location prop)
  ∧ country prop = default None (in_country body)
  ∧ in_price_per_night body = Some (price_per_night prop)
  ∧ in_max_guests body = Some (max_guests prop)
  ∧ bedrooms prop = default 1 (in_bedrooms body)
  ∧ bathrooms prop = default 1 (in_bathrooms body)
  ∧ rating prop = default None (in_rating body)
  ∧ review_count prop = default (Some 0) (in_review_count body)
  ∧ amenities prop = default [] (in_amenities body)
  ∧ image_urls prop = default [] (in_image_urls body).

(** ... and the constraints of [Property] hold. *)
Definition in_range (prop : Property) : Prop :=
  (0 <= price_per_night prop)%Q
  ∧ 1 ≤ max_guests prop
  ∧ ∀ r, rating prop = Some r → (0 <= r)%Q ∧ (r <= 5)%Q.

(** The view with the fields of a validated property. *)
Definition view_of (id : string) (prop : Property) : PropertyOut :=
  {| out_id := id; out_title := title prop;
     out_description := description prop; out_location := location prop;
     out_country := country prop;
     out_price_per_night := price_per_night prop;
     out_max_guests := max_guests prop; out_bedrooms := bedrooms prop;
     out_bathrooms := bathrooms prop; out_rating := rating prop;
     out_review_count := review_count prop; out_amenities := amenities prop;
     out_image_urls := image_urls prop |}.

(** A computation that leaves the stored properties in place and adds only
    properties that satisfy the invariant. *)
Definition extends {A} (m : App A) : Prop :=
  ∀ db, ∃ created,
    properties (m db).2 = properties db ++ created
    ∧ Forall (fun doc => property_invariant doc = true) created.

(** The exceptions a document-to-view conversion can raise. *)
Definition conversion_error (e : exn) : Prop :=
  e = TypeError ∨ e = ValueError ∨ e = ValidationError.

(** The keys a view is read from, [_id] apart. *)
Definition view_fields : list string :=
  [ "title"; "description"; "location"; "country"; "price_per_night";
    "max_guests"; "bedrooms"; "bathrooms"; "rating"; "review_count";
    "amenities"; "image_urls" ].

(** The view of a document that has none of these keys. *)
Definition default_view (id : string) : PropertyOut :=
  {| out_id := id; out_title := ""; out_description := "";
     out_location := ""; out_country := None;
     out_price_per_night := inject_Z 0; out_max_guests := 1;
     out_bedrooms := 1; out_bathrooms := 1; out_rating := None;
     out_review_count := Some 0; out_amenities := [];
     out_image_urls := [] |}.

(** Integers as the store holds them (64 bits), and those a float holds
    exactly. *)
Definition int64 (z : Z) : bool := (- 2 ^ 63 <=? z) && (z <? 2 ^ 63).
Definition float_exact (z : Z) : bool := (- 2 ^ 53 <=? z) && (z <=? 2 ^ 53).

(** What a key of a stored property may hold for its value to have the
    type that [PropertyOut] declares for the field: nothing (the key is
    missing), or ... *)
Definition is_text (o : option value) : bool :=
  match o with
  | None | Some (VStr _) => true
  | _ => false
  end.

Definition is_optional_text (o : option value) : bool :=
  match o with
  | None | Some VNone | Some (VStr _) => true
  | _ => false
  end.

Definition is_number (o : option value) : bool :=
  match o with
  | None | Some (VFloat _) => true
  | Some (VInt z) => float_exact z
  | _ => false
  end.

Definition is_optional_number (o : option value) : bool :=
  match o with
  | None | Some VNone | Some (VFloat _) => true
  | Some (VInt z) => float_exact z
  | _ => false
  end.

Definition is_integer (o : option value) : bool :=
  match o with
  | None => true
  | Some (VInt z) => int64 z
  | _ => false
  end.

Definition is_optional_integer (o : option value) : bool :=
  match o with
  | None | Some VNone => true
  | Some (VInt z) => int64 z
  | _ => false
  end.

Definition is_texts (o : option value) : bool :=
  match o with
  | None => true
  | Some (VList l) => forallb (fun v => if v is VStr _ then true else false) l
  | _ => false
  end.

(** A stored property whose fields, where present, have the declared
    types. *)
Definition typed (d : document) : bool :=
  is_text (d !! "title") && is_text (d !! "description")
  && is_text (d !! "location") && is_optional_text (d !! "country")
  && is_number (d !! "price_per_night") && is_integer (d !! "max_guests")
  && is_integer (d !! "bedrooms") && is_integer (d !! "bathrooms")
  && is_optional_number (d !! "rating")
  && is_optional_integer (d !! "review_count")
  && is_texts (d !! "amenities") && is_texts (d !! "image_urls").

(** The keys read with [float(...)] and [int(...)]. *)
Definition converted_fields : list string :=
  [ "price_per_night"; "max_guests"; "bedrooms"; "bathrooms" ].

(** The documents the listing converts: those of the [property] collection
    that the store matches against the filter, in the store's order. *)
Definition matched (q location : option string)
    (min_price max_price : option Q) (d : Database) : list document :=
  List.filter (matches (filter_dict q location min_price max_price))
    (collection d "property").

(** Two states of [db] that hold the same documents: only the fault script
    may differ. *)
Definition same_documents (db db' : option Database) : Prop :=
  match db, db' with
  | None, None => True
  | Some d, Some d' =>
    db_name d' = db_name d ∧ collections d' = collections d
    ∧ generated d' = generated d
  | _, _ => False
  end.

(** A computation that leaves the documents as they are. *)
Definition preserves {A} (m : App A) : Prop :=
  ∀ db, same_documents db (m db).2.

End Backend.

(** * A concrete runtime *)

(** An instance to run the handlers on: identifiers are written as 24
    hexadecimal digits and generated by counting, strings of decimal digits
    denote numbers, and the store returns every document for every filter
    (no statement below depends on how the store evaluates a filter). *)

Definition hex_digit (c : ascii) : option N :=
  let n := N_of_ascii c in
  if ((48 <=? n) && (n <=? 57))%N then Some (n - 48)%N
  else if ((97 <=? n) && (n <=? 102))%N then Some (n - 87)%N
  else if ((65 <=? n) && (n <=? 70))%N then Some (n - 55)%N
  else None.

Fixpoint hex_value (s : string) (acc : N) : option N :=
  match s with
  | EmptyString => Some acc
  | String c s' =>
    match hex_digit c with
    | Some v => hex_value s' (16 * acc + v)%N
    | None => None
    end
  end.

Definition hex_ObjectId (s : string) : option oid :=
  if (String.length s =? 24)%nat then hex_value s 0%N else None.

Definition hex_char (n : N) : ascii :=
  ascii_of_N (if (n <? 10)%N then n + 48 else n + 87)%N.

Fixpoint hex_string (digits : nat) (n : N) (acc : string) : string :=
  match digits with
  | O => acc
  | S k => hex_string k (n / 16)%N (String (hex_char (n mod 16)%N) acc)
  end.

Definition str_value (v : value) : string :=
  match v with
  | VObjectId o => hex_string 24 o ""
  | VStr s => s
  | VNone => "None"
  | _ => ""
  end.

Fixpoint decimal_value (s : string) (acc : Z) : option Z :=
  match s with
  | EmptyString => Some acc
  | String c s' =>
    let n := N_of_ascii c in
    if ((48 <=? n) && (n <=? 57))%N
    then decimal_value s' (10 * acc + Z.of_N (n - 48))
    else None
  end.

Definition decimal (s : string) : option Z :=
  if String.eqb s "" then None else decimal_value s 0.

Definition sample_runtime : Runtime :=
  {| ObjectId := hex_ObjectId;
     new_ObjectId := N.of_nat;
     py_str := str_value;
     float_of_str := fun s => inject_Z <$> decimal s;
     int_of_str := decimal;
     matches := fun _ _ => true;
     DATABASE_URL := Some "mongodb://localhost:27017" |}.

Definition empty_store : Database :=
  {| db_name := "huts"; collections := ∅; generated := 0; faults := [] |}.

(** The body of the end-to-end example of the specification. *)
Definition test_property : PropertyPayload :=
  {| in_title := Some "Test"; in_description := Some "d";
     in_location := Some "X"; in_country := None;
     in_price_per_night := Some (100 # 1); in_max_guests := Some 2;
     in_bedrooms := None; in_bathrooms := None; in_rating := None;
     in_review_count := None; in_amenities := None; in_image_urls := None |}.

Definition negative_price : PropertyPayload :=
  {| in_title := Some "Test"; in_description := Some "d";
     in_location := Some "X"; in_country := None;
     in_price_per_night := Some (-1 # 1); in_max_guests := Some 2;
     in_bedrooms := None; in_bathrooms := None; in_rating := None;
     in_review_count := None; in_amenities := None; in_image_urls := None |}.

(** A booking that leaves before it arrives, for a property that is not
    in the store. *)
Definition backwards_booking : BookingPayload :=
  {| in_property_id := Some "no-such-property"; in_name := Some "Ada";
     in_email := Some "ada@example.org"; in_phone := None;
     in_check_in := Some (Date 2025 7 10);
     in_check_out := Some (Date 2025 7 1);
     in_guests := Some 2; in_message := None |}.

Definition no_guests : BookingPayload :=
  {| in_property_id := Some "no-such-property"; in_name := Some "Ada";
     in_email := Some "ada@example.org"; in_phone := None;
     in_check_in := Some (Date 2025 7 1);
     in_check_out := Some (Date 2025 7 10);
     in_guests := Some 0; in_message := None |}.

(** Stored documents that were not written through the API: one with
    nothing but its [_id], one with a [null] review count, one whose price
    is [null]. *)
Definition bare_document : document := {[ "_id" := VObjectId 7%N ]}.

Definition hut : document :=
  {[ "_id" := VObjectId 1%N; "title" := VStr "Hut";
     "price_per_night" := VFloat (95 # 1); "review_count" := VNone ]}.

Definition shed : document :=
  {[ "_id" := VObjectId 2%N; "title" := VStr "Shed";
     "price_per_night" := VNone ]}.

Definition hut_view : PropertyOut :=
  {| out_id := "000000000000000000000001"; out_title := "Hut";
     out_description := ""; out_location := ""; out_country := None;
     out_price_per_night := 95 # 1; out_max_guests := 1; out_bedrooms := 1;
     out_bathrooms := 1; out_rating := None; out_review_count := None;
     out_amenities := []; out_image_urls := [] |}.

Definition hut_store : Database :=
  {| db_name := "huts"; collections := {[ "property" := [hut] ]};
     generated := 0; faults := [] |}.

Definition shed_store : Database :=
  {| db_name := "huts"; collections := {[ "property" := [hut; shed] ]};
     generated := 0; faults := [] |}.

(** A store whose next driver call fails. *)
Definition failing_store : Database :=
  {| db_name := "huts"; collections := ∅; generated := 0;
     faults := [Some "connection refused"] |}.

(** * Properties *)

Section Properties.
Context {runtime : Runtime}.

(** ** The filter *)


Lemma filter_dict_price (q location : option string)
    (min_price max_price : option Q) :
  filter_dict q location min_price max_price !! "price_per_night"
  = price_clause min_price max_price.
Proof.
  by destruct q as [[|a q]|], location as [[|b l]|],
    min_price as [lo|], max_price as [hi|].
Qed.

(** C9: an empty [q] or [location] gives the filter, and the response, of
    an absent one, whereas a bound of 0 is a bound like any other. *)
Theorem empty_text_is_absent_zero_is_a_bound
    (q location : option string) (min_price max_price : option Q)
    (db : option Database) :
  filter_dict (Some "") location min_price max_price
    = filter_dict None location min_price max_price
  ∧ filter_dict q (Some "") min_price max_price
    = filter_dict q None min_price max_price
  ∧ handle (GET_properties (Some "") location min_price max_price) db
    = handle (GET_properties None location min_price max_price) db
  ∧ handle (GET_properties q (Some "") min_price max_price) db
    = handle (GET_properties q None min_price max_price) db
  ∧ filter_dict q location (Some 0%Q) max_price !! "price_per_night"
    = price_clause (Some 0%Q) max_price
  ∧ filter_dict q location min_price (Some 0%Q) !! "price_per_night"
    = price_clause min_price (Some 0%Q)
  ∧ (∃ bounds, price_clause (Some 0%Q) max_price = Some (VDict bounds)
               ∧ bounds !! "$gte" = Some (VFloat 0))
  ∧ (∃ bounds, price_clause min_price (Some 0%Q) = Some (VDict bounds)
               ∧ bounds !! "$lte" = Some (VFloat 0)).
Proof.
  split_and!; try reflexivity; try apply filter_dict_price.
  - by destruct max_price; eexists.
  - by destruct min_price; eexists.
Qed.

(** ** Without a store connection *)

(** C5: with no store connection the listing answers 200 with the empty
    sequence, whatever the query parameters. *)
Theorem list_properties_no_store (q location : option string)
    (min_price max_price : option Q) :
  handle (GET_properties q location min_price max_price) None
  = (JSONResponse 200 (PropertyList []), None).
Proof. reflexivity. Qed.

(** C10: with no store connection the lookup of a property answers 404
    "Not found" for every id, whatever [ObjectId] would make of it. *)
Theorem get_property_no_store (property_id : string) :
  handle (GET_property property_id) None
  = (ErrorResponse 404 "Not found", None).
Proof. reflexivity. Qed.

(** ** Identifiers that do not parse *)

(** With a store connection, [ObjectId] is applied outside any [try]: the
    [InvalidId] it raises reaches the HTTP layer and is answered as 500. *)
Lemma get_property_invalid_id (d : Database) (property_id : string) :
  ObjectId property_id = None →
  handle (GET_property property_id) (Some d)
  = (ErrorResponse 500 "Internal Server Error", Some d).
Proof.
  intros Hid. cbn. unfold get_property, mbind, App_bind, db_is_None, lift.
  cbn. by rewrite Hid.
Qed.

(** ** Driver calls *)

Lemma driver_call_healthy {A} (op : Database → A * Database) (d : Database) :
  healthy 1 d = true →
  driver_call op (Some d) = (Return (op (tick d)).1, Some (op (tick d)).2).
Proof.
  unfold healthy, driver_call. destruct (faults d) as [|[msg|] fs]; cbn;
    try done; by destruct (op (tick d)).
Qed.

Lemma healthy_tick (n : nat) (d : Database) :
  healthy (S n) d = true → healthy 1 d = true ∧ healthy n (tick d) = true.
Proof.
  unfold healthy, tick. cbn. destruct (faults d) as [|[msg|] fs]; cbn;
    try done. by destruct n.
Qed.

Lemma faults_tick (d : Database) : faults (tick d) = drop 1 (faults d).
Proof. unfold tick. cbn. by destruct (faults d). Qed.

Lemma head_faults_tick (d : Database) :
  head (faults (tick d)) = faults d !! 1%nat.
Proof. rewrite faults_tick. by destruct (faults d) as [|? [|? ?]]. Qed.

Lemma collection_tick (d : Database) (c : string) :
  collection (tick d) c = collection d c.
Proof. reflexivity. Qed.

Lemma collection_store_eq (c : string) (docs : list document) (d : Database) :
  collection (store c docs d).2 c
  = collection d c
    ++ zip_with (fun o doc => <["_id" := VObjectId o]> doc)
         (new_ObjectId <$> seq (generated d) (length docs)) docs.
Proof. unfold collection at 1, store. cbn. by rewrite lookup_insert_eq. Qed.

Lemma collection_store_ne (c c' : string) (docs : list document)
    (d : Database) :
  c ≠ c' → collection (store c docs d).2 c' = collection d c'.
Proof.
  intros Hne. unfold collection, store. cbn. by rewrite lookup_insert_ne.
Qed.

(** ** The startup seeder *)

Lemma samples_stored (ids : list oid) :
  length ids = 3%nat →
  delete "_id"
    <$> zip_with (fun o doc => <["_id" := VObjectId o]> doc) ids samples
  = samples.
Proof.
  by destruct ids as [|o1 [|o2 [|o3 [|o4 ids]]]].
Qed.

(** C3: run with a store connection, the seeder returns normally whatever
    the driver does; when the [property] collection is empty and the two
    driver calls succeed, the collection afterwards holds exactly the three
    sample records, each under a generated [_id], and the other collections
    are as before; when the collection is not empty, all collections are as
    before.  The samples are the three of section 6.  A failure is
    swallowed and nothing is done after it: when the count fails, or the
    insert fails, every collection and the id counter are as before and no
    further driver call is made; in every case the seeder makes one or two
    driver calls and no more. *)
Theorem seed_sample_properties_spec (d : Database) :
  (seed_sample_properties (Some d)).1 = Return ()
  ∧ headline <$> samples
    = [ [ VStr "Cozy Mountain Hut"; VStr "Aspen, Colorado"; VStr "USA";
          VInt 220; VInt 4; VInt 2; VInt 1; VFloat (48 # 10); VInt 128 ];
        [ VStr "Lakeside Cabin Retreat"; VStr "Lake Tahoe, California";
          VStr "USA";
          VInt 180; VInt 5; VInt 2; VInt 2; VFloat (46 # 10); VInt 86 ];
        [ VStr "Nordic Forest Lodge"; VStr "Rovaniemi, Finland";
          VStr "Finland";
          VInt 260; VInt 6; VInt 3; VInt 2; VFloat (49 # 10); VInt 203 ] ]
  ∧ (collection d "property" = [] → healthy 2 d = true →
     ∃ d', (seed_sample_properties (Some d)).2 = Some d'
           ∧ delete "_id" <$> collection d' "property" = samples
           ∧ ∀ c, c ≠ "property" → collection d' c = collection d c)
  ∧ (collection d "property" ≠ [] →
     ∃ d', (seed_sample_properties (Some d)).2 = Some d'
           ∧ collections d' = collections d)
  ∧ (∀ msg, head (faults d) = Some (Some msg) →
     ∃ d', (seed_sample_properties (Some d)).2 = Some d'
           ∧ collections d' = collections d
           ∧ generated d' = generated d
           ∧ faults d' = drop 1 (faults d))
  ∧ (∀ msg, healthy 1 d = true → collection d "property" = [] →
     faults d !! 1%nat = Some (Some msg) →
     ∃ d', (seed_sample_properties (Some d)).2 = Some d'
           ∧ collections d' = collections d
           ∧ generated d' = generated d
           ∧ faults d' = drop 2 (faults d))
  ∧ (∃ d', (seed_sample_properties (Some d)).2 = Some d'
           ∧ (faults d' = drop 1 (faults d)
              ∨ faults d' = drop 2 (faults d))).
Proof.
  unfold seed_sample_properties, mbind, App_bind, try_except, db_is_None.
  cbn [fst snd]. unfold count_documents, insert_many.
  split_and!.
  - unfold driver_call at 1.
    destruct (head (faults d)) as [[msg|]|]; [done| |];
      (destruct (length _); cbn [Nat.eqb samples];
       [ unfold driver_call;
         by destruct (head (faults (tick d))) as [[msg'|]|] | done ]).
  - reflexivity.
  - intros Hempty Hok. apply healthy_tick in Hok as [Hok1 Hok2].
    rewrite (driver_call_healthy _ _ Hok1). cbn [fst snd].
    rewrite collection_tick, Hempty. cbn [length Nat.eqb samples].
    rewrite (driver_call_healthy _ _ Hok2). cbn [fst snd mret App_ret].
    eexists; split; [done|]. split.
    + rewrite collection_store_eq, !collection_tick, Hempty, app_nil_l.
      by apply samples_stored.
    + intros c Hc. by rewrite collection_store_ne.
  - intros Hsome. unfold driver_call.
    destruct (head (faults d)) as [[msg|]|]; cbn [fst snd];
      [by eexists| |];
      (rewrite collection_tick;
       destruct (collection d "property"); [done|]; by eexists).
  - intros msg Hfail. unfold driver_call. rewrite Hfail. cbn [fst snd].
    eexists; split; [done|]. by rewrite faults_tick.
  - intros msg Hok Hempty Hfail.
    rewrite (driver_call_healthy _ _ Hok). cbn [fst snd].
    rewrite collection_tick, Hempty. cbn [length Nat.eqb samples].
    unfold driver_call. rewrite head_faults_tick, Hfail. cbn [fst snd].
    eexists; split; [done|]. rewrite !faults_tick, drop_drop. done.
  - unfold driver_call at 1.
    destruct (head (faults d)) as [[msg|]|]; cbn [fst snd];
      [ eexists; split; [done|]; left; apply faults_tick | |];
      (destruct (length _); cbn [Nat.eqb samples];
       [ unfold driver_call;
         destruct (head (faults (tick d))) as [[msg'|]|]; cbn [fst snd];
         eexists; (split; [done|]); right; cbn [faults store snd];
         by rewrite !faults_tick, drop_drop
       | eexists; split; [done|]; left; apply faults_tick ]).
Qed.

(** ** Validation *)

Lemma required_Some {A} (c : A → bool) (field : option A) (x : A) :
  required c field = Some x → field = Some x ∧ c x = true.
Proof.
  unfold required. destruct field as [y|]; [|done].
  destruct (c y) eqn:Hc; [|done]. by intros [= <-].
Qed.

Lemma optional_Some {A} (dflt : A) (c : A → bool) (field : option A) (x : A) :
  optional dflt c field = Some x →
  x = default dflt field ∧ (field = None ∨ c x = true).
Proof.
  unfold optional. destruct field as [y|]; [|intros [= <-]; auto].
  destruct (c y) eqn:Hc; [|done]. intros [= <-]. auto.
Qed.

Ltac invert_validation H :=
  repeat (apply bind_Some in H as (? & ? & H));
  injection H as <-;
  repeat match goal with
    | H' : required _ _ = Some _ |- _ => apply required_Some in H' as [? ?]
    | H' : optional _ _ _ = Some _ |- _ => apply optional_Some in H' as [? ?]
    end.

Lemma validate_Property_Some (body : PropertyPayload) (prop : Property) :
  validate_Property body = Some prop → filled body prop ∧ in_range prop.
Proof.
  intros H. unfold validate_Property in H. invert_validation H.
  split; [by repeat split|]. unfold in_range; cbn.
  split; [by apply Qle_bool_iff|]. split; [unfold ge in *; lia|].
  intros r Hr.
  match goal with
  | Hd : in_rating body = None ∨ _, Hx : _ = default None (in_rating body)
    |- _ => destruct Hd as [Hd|Hd]; [rewrite Hd in Hx; cbn in Hx; congruence|];
            rewrite Hr in Hd; cbn in Hd; apply andb_prop in Hd as [Hlo Hhi]
  end.
  split; by apply Qle_bool_iff.
Qed.

Lemma validate_Booking_Some (body : BookingPayload) (booking : Booking) :
  validate_Booking body = Some booking →
  in_guests body = Some (guests booking) ∧ 1 ≤ guests booking.
Proof.
  intros H. unfold validate_Booking in H. invert_validation H.
  cbn. split; [done|]. unfold ge in *; lia.
Qed.

(** C6: a negative [price_per_night] (such as -1) and a [guests] below 1
    (such as 0) are answered with 422, and the store is left as it was. *)
Theorem out_of_range_is_unprocessable (db : option Database) :
  (∀ body x,
     in_price_per_night body = Some x → (x < 0)%Q →
     status_code_of (handle (POST_properties body) db).1 = 422
     ∧ (handle (POST_properties body) db).2 = db)
  ∧ (∀ body g,
       in_guests body = Some g → g < 1 →
       status_code_of (handle (POST_bookings body) db).1 = 422
       ∧ (handle (POST_bookings body) db).2 = db).
Proof.
  split.
  - intros body x Hx Hneg. unfold handle.
    destruct (validate_Property body) as [prop|] eqn:Hv; [exfalso|done].
    apply validate_Property_Some in Hv as [(_ & _ & _ & _ & Hp & _) [Hr _]].
    rewrite Hx in Hp. injection Hp as ->. by apply Qlt_not_le in Hneg.
  - intros body g Hg Hlow. unfold handle.
    destruct (validate_Booking body) as [booking|] eqn:Hv; [exfalso|done].
    apply validate_Booking_Some in Hv as [Hb Hr].
    rewrite Hg in Hb. injection Hb as ->. lia.
Qed.

(** ** Writes *)

Lemma required_ok {A} (c : A → bool) (x : A) :
  c x = true → required c (Some x) = Some x.
Proof. unfold required. by intros ->. Qed.

Lemma optional_any {A} (dflt : A) (field : option A) :
  optional dflt any field = Some (default dflt field).
Proof. by destruct field. Qed.

Lemma create_document_healthy `{BaseModel A} (c : string) (data : A)
    (d : Database) :
  healthy 1 d = true →
  create_document c data (Some d)
  = (Return (py_str (VObjectId (new_ObjectId (generated d)))),
     Some (store c [model_dump data] (tick d)).2).
Proof.
  intros Hok. unfold create_document, mbind, App_bind, db_is_None, insert_one.
  cbn [fst snd]. by rewrite (driver_call_healthy _ _ Hok).
Qed.

(** C8: a booking body whose required fields are present and whose
    [guests] is at least 1 is answered 201 when the store takes the insert:
    the body of the response is the string of the id the store generated
    for the booking, with status "received", and the [booking] collection
    has gained exactly the booking sent, under that id, the other
    collections being as before; nothing relates [check_out] to
    [check_in], or [property_id] to the stored properties. *)
Theorem create_booking_accepts (d : Database) (body : BookingPayload)
    (pid name email : string) (check_in check_out : date) (guests : Z) :
  in_property_id body = Some pid →
  in_name body = Some name →
  in_email body = Some email →
  in_check_in body = Some check_in →
  in_check_out body = Some check_out →
  in_guests body = Some guests →
  1 ≤ guests →
  healthy 1 d = true →
  let inserted_id := new_ObjectId (generated d) in
  ∃ d',
    handle (POST_bookings body) (Some d)
    = (JSONResponse 201
         (BookingReceived (py_str (VObjectId inserted_id)) "received"),
       Some d')
    ∧ collection d' "booking"
      = collection d "booking"
        ++ [ <["_id" := VObjectId inserted_id]>
               (model_dump
                  {| property_id := pid; name := name; email := email;
                     phone := default None (in_phone body);
                     check_in := check_in; check_out := check_out;
                     guests := guests;
                     message := default None (in_message body) |}) ]
    ∧ ∀ c, c ≠ "booking" → collection d' c = collection d c.
Proof.
  intros Hpid Hname Hemail Hin Hout Hguests Hge Hok inserted_id.
  unfold handle, validate_Booking.
  rewrite Hpid, Hname, Hemail, Hin, Hout, Hguests, !optional_any.
  rewrite (required_ok (ge 1)) by (unfold ge; lia). cbn [required any mbind option_bind].
  unfold respond, create_booking, mbind, App_bind.
  rewrite (create_document_healthy _ _ _ Hok). cbn [fst snd mret App_ret].
  eexists. split; [reflexivity|]. split.
  - by rewrite collection_store_eq, collection_tick.
  - intros c Hc. by rewrite collection_store_ne, collection_tick.
Qed.

(** ** Round trip *)

Lemma mapM_as_str (l : list string) : mapM as_str (VStr <$> l) = Return l.
Proof. induction l as [|x l IH]; [done|]. cbn. by rewrite IH. Qed.

Lemma property_out_dump (o : oid) (prop : Property) :
  property_out (<["_id" := VObjectId o]> (model_dump prop))
  = Return (view_of (py_str (VObjectId o)) prop).
Proof.
  unfold property_out.
  set (doc := <["_id" := VObjectId o]> (model_dump prop)).
  replace (get "_id" VNone doc) with (VObjectId o) by reflexivity.
  replace (get "price_per_night" (VInt 0) doc)
    with (VFloat (price_per_night prop)) by reflexivity.
  replace (get "max_guests" (VInt 1) doc)
    with (VInt (max_guests prop)) by reflexivity.
  replace (get "bedrooms" (VInt 1) doc)
    with (VInt (bedrooms prop)) by reflexivity.
  replace (get "bathrooms" (VInt 1) doc)
    with (VInt (bathrooms prop)) by reflexivity.
  replace (get "title" (VStr "") doc) with (VStr (title prop)) by reflexivity.
  replace (get "description" (VStr "") doc)
    with (VStr (description prop)) by reflexivity.
  replace (get "location" (VStr "") doc)
    with (VStr (location prop)) by reflexivity.
  replace (get "country" VNone doc)
    with (from_option VStr VNone (country prop)) by reflexivity.
  replace (get "rating" VNone doc)
    with (from_option VFloat VNone (rating prop)) by reflexivity.
  replace (get "review_count" (VInt 0) doc)
    with (from_option VInt VNone (review_count prop)) by reflexivity.
  replace (get "amenities" (VList []) doc)
    with (VList (VStr <$> amenities prop)) by reflexivity.
  replace (get "image_urls" (VList []) doc)
    with (VList (VStr <$> image_urls prop)) by reflexivity.
  unfold as_str_list, view_of. rewrite !mapM_as_str.
  by destruct (country prop), (rating prop), (review_count prop).
Qed.

Lemma find_fresh (o : oid) (l : list document) (doc : document) :
  (∀ x, x ∈ l → has_id o x = false) →
  List.find (has_id o) (l ++ [<["_id" := VObjectId o]> doc])
  = Some (<["_id" := VObjectId o]> doc).
Proof.
  intros Hfresh. induction l as [|x l IH]; cbn.
  - unfold has_id. rewrite lookup_insert_eq. by rewrite bool_decide_eq_true_2.
  - rewrite Hfresh by left. apply IH. intros y Hy. apply Hfresh. by right.
Qed.

(** C4: when a body passes validation, the store takes the insert and the
    lookup, and generates an id that is not in use and that [ObjectId]
    reads back from its string, the POST answers 201 with an id
    and the GET of that id answers 200 with the view whose fields are those
    of the validated property, which are the fields sent, with the defaults
    for the optional fields omitted. *)
Theorem create_then_get (d : Database) (body : PropertyPayload)
    (prop : Property) :
  (let o := new_ObjectId (generated d) in
   ObjectId (py_str (VObjectId o)) = Some o) →
  validate_Property body = Some prop →
  healthy 2 d = true →
  (∀ doc, doc ∈ collection d "property" →
          has_id (new_ObjectId (generated d)) doc = false) →
  ∃ id d1 d2,
    handle (POST_properties body) (Some d)
    = (JSONResponse 201 (InsertedId id), Some d1)
    ∧ handle (GET_property id) (Some d1)
      = (JSONResponse 200 (PropertyView (view_of id prop)), Some d2)
    ∧ filled body prop.
Proof.
  intros Hstr Hvalid Hok Hfresh.
  apply healthy_tick in Hok as [Hok1 Hok2]. cbn zeta in Hstr.
  set (o := new_ObjectId (generated d)) in *.
  set (d1 := (store "property" [model_dump prop] (tick d)).2).
  exists (py_str (VObjectId o)), d1. eexists. split_and!.
  - unfold handle. rewrite Hvalid. unfold respond, create_property.
    by rewrite (create_document_healthy _ _ _ Hok1).
  - unfold handle, respond, get_property, mbind, App_bind, db_is_None, lift.
    cbn [fst snd]. rewrite Hstr. unfold find_one.
    rewrite (driver_call_healthy _ d1 Hok2). cbn [fst snd].
    rewrite collection_tick. unfold d1. rewrite collection_store_eq.
    rewrite collection_tick. cbn [length seq fmap list_fmap zip_with].
    fold o. rewrite (find_fresh o _ _ Hfresh).
    destruct (decide (<["_id" := VObjectId o]> (model_dump prop) = ∅))
      as [Hempty|_]; [by apply insert_non_empty in Hempty|].
    by rewrite property_out_dump.
  - by apply validate_Property_Some.
Qed.

(** ** The invariant of stored properties *)

Ltac unchanged := intros db; exists []; by rewrite app_nil_r.

Lemma extends_ret {A} (a : A) : extends (mret a).
Proof. unchanged. Qed.

Lemma extends_raise {A} (e : exn) : extends (raise (A := A) e).
Proof. unchanged. Qed.

Lemma extends_lift {A} (o : outcome A) : extends (lift o).
Proof. unchanged. Qed.

Lemma extends_db_is_None : extends db_is_None.
Proof. unchanged. Qed.

Lemma extends_bind {A B} (m : App A) (f : A → App B) :
  extends m → (∀ a, extends (f a)) → extends (m ≫= f).
Proof.
  intros Hm Hf db. unfold mbind, App_bind.
  destruct (Hm db) as (c1 & E1 & I1). destruct (m db) as [[a|e] db']; [|eauto].
  destruct (Hf a db') as (c2 & E2 & I2). exists (c1 ++ c2).
  cbn [snd] in E1. rewrite E2, E1, app_assoc. split; [done|].
  by apply Forall_app.
Qed.

Lemma extends_try_except {A} (body : App A) (handler : exn → App A) :
  extends body → (∀ e, extends (handler e)) → extends (try_except body handler).
Proof.
  intros Hm Hf db. unfold try_except.
  destruct (Hm db) as (c1 & E1 & I1). destruct (body db) as [[a|e] db']; [eauto|].
  destruct (Hf e db') as (c2 & E2 & I2). exists (c1 ++ c2).
  cbn [snd] in E1. rewrite E2, E1, app_assoc. split; [done|].
  by apply Forall_app.
Qed.

Lemma extends_driver_call {A} (op : Database → A * Database) :
  (∀ d, ∃ created,
     collection (op d).2 "property" = collection d "property" ++ created
     ∧ Forall (fun doc => property_invariant doc = true) created) →
  extends (driver_call op).
Proof.
  intros Hop [d|]; [|by exists []]. unfold driver_call.
  destruct (head (faults d)) as [[msg|]|];
    [ exists []; cbn; by rewrite app_nil_r | |];
    (destruct (Hop (tick d)) as (c & E & I); exists c;
     destruct (op (tick d)) as [a d']; by cbn in *).
Qed.

Lemma extends_read {A} (f : Database → A) :
  extends (driver_call (fun d => (f d, d))).
Proof.
  apply extends_driver_call. intros d. exists []. by rewrite app_nil_r.
Qed.

Lemma invariant_dump (o : oid) (prop : Property) :
  in_range prop →
  property_invariant (<["_id" := VObjectId o]> (model_dump prop)) = true.
Proof.
  intros (Hprice & Hguests & Hrating). unfold property_invariant.
  set (doc := <["_id" := VObjectId o]> (model_dump prop)).
  replace (get "price_per_night" VNone doc)
    with (VFloat (price_per_night prop)) by reflexivity.
  replace (get "max_guests" VNone doc)
    with (VInt (max_guests prop)) by reflexivity.
  replace (get "rating" VNone doc)
    with (from_option VFloat VNone (rating prop)) by reflexivity.
  cbn [number]. apply Qle_bool_iff in Hprice as ->.
  apply Z.leb_le in Hguests as ->. cbn [andb].
  destruct (rating prop) as [r|]; [|done]. cbn.
  destruct (Hrating r eq_refl) as [Hlo Hhi].
  apply Qle_bool_iff in Hlo as ->. by apply Qle_bool_iff in Hhi as ->.
Qed.

Lemma extends_create_document `{BaseModel A} (c : string) (data : A) :
  c ≠ "property"
  ∨ (∀ o, property_invariant (<["_id" := VObjectId o]> (model_dump data))
          = true) →
  extends (create_document c data).
Proof.
  intros Hc. unfold create_document.
  apply extends_bind; [apply extends_db_is_None|]. intros [|];
    [apply extends_raise|].
  apply extends_bind; [|intros; apply extends_ret].
  apply extends_driver_call. intros d.
  destruct (store c [model_dump data] d) as [ids d'] eqn:Hstore.
  assert (d' = (store c [model_dump data] d).2) as -> by by rewrite Hstore.
  cbn [snd]. destruct (decide (c = "property")) as [->|Hne].
  - rewrite collection_store_eq. eexists; split; [done|].
    destruct Hc as [?|Hinv]; [done|]. cbn. by repeat constructor.
  - rewrite collection_store_ne by done. exists []. by rewrite app_nil_r.
Qed.

Lemma extends_seed_sample_properties : extends seed_sample_properties.
Proof.
  unfold seed_sample_properties.
  apply extends_bind; [apply extends_db_is_None|]. intros [|];
    [apply extends_ret|].
  apply extends_try_except; [|intros; apply extends_ret].
  apply extends_bind; [apply extends_read|]. intros count.
  destruct (count =? 0)%nat; [|apply extends_ret]. cbn [samples].
  apply extends_bind; [|intros; apply extends_ret].
  apply extends_driver_call. intros d. rewrite collection_store_eq.
  eexists; split; [done|]. cbn. by repeat constructor.
Qed.

Lemma respond_state {A} (status_code : Z) (render : A → content)
    (handler : App A) (db : option Database) :
  (respond status_code render handler db).2 = (handler db).2.
Proof. unfold respond. by destruct (handler db) as [[a|[]] db']. Qed.

Lemma extends_handle (r : request) (db : option Database) :
  ∃ created,
    properties (handle r db).2 = properties db ++ created
    ∧ Forall (fun doc => property_invariant doc = true) created.
Proof.
  destruct r as [|q l lo hi|body|property_id|body|]; cbn [handle].
  - exists []. by rewrite app_nil_r.
  - rewrite respond_state. revert db. change (extends (list_properties q l lo hi)).
    unfold list_properties, get_documents.
    apply extends_bind; [apply extends_db_is_None|]. intros [|];
      [apply extends_ret|].
    apply extends_bind; [|intros; apply extends_lift].
    apply extends_bind; [apply extends_db_is_None|]. intros [|];
      [apply extends_ret|apply extends_read].
  - destruct (validate_Property body) as [prop|] eqn:Hvalid;
      [|exists []; by rewrite app_nil_r].
    rewrite respond_state. revert db. apply extends_create_document. right.
    intros o. apply invariant_dump.
    by apply validate_Property_Some in Hvalid as [_ ?].
  - rewrite respond_state. revert db. change (extends (get_property property_id)).
    unfold get_property.
    apply extends_bind; [apply extends_db_is_None|]. intros [|];
      [apply extends_raise|].
    apply extends_bind; [apply extends_lift|]. intros o.
    apply extends_bind; [apply extends_read|]. intros [doc|];
      [|apply extends_raise].
    destruct (decide (doc = ∅)); [apply extends_raise|apply extends_lift].
  - destruct (validate_Booking body) as [booking|];
      [|exists []; by rewrite app_nil_r].
    rewrite respond_state. revert db. change (extends (create_booking booking)).
    unfold create_booking.
    apply extends_bind; [|intros; apply extends_ret].
    apply extends_create_document. by left.
  - rewrite respond_state. destruct db as [d|]; [|exists []; by cbn].
    unfold test_database.
    apply extends_try_except; [|intros; apply extends_ret].
    apply extends_bind; [apply extends_read|]. intros; apply extends_ret.
Qed.

(** C7: in every state the process reaches, the [property] collection is
    the one it started from, in place and unchanged, followed by the
    properties created since, and each of these has a [price_per_night] of
    at least 0, a [max_guests] of at least 1 and, when it has a rating, one
    between 0 and 5. *)
Theorem created_properties_invariant (db0 db : option Database) :
  reachable db0 db →
  ∃ created,
    properties db = properties db0 ++ created
    ∧ Forall (fun doc => property_invariant doc = true) created.
Proof.
  induction 1 as [|db r _ (c1 & E1 & I1)].
  - apply extends_seed_sample_properties.
  - destruct (extends_handle r db) as (c2 & E2 & I2). exists (c1 ++ c2).
    rewrite E2, E1, app_assoc. split; [done|]. by apply Forall_app.
Qed.

(** ** From a document to its view *)

Lemma outcome_bind_Raise {A B} (m : outcome A) (f : A → outcome B) (e : exn) :
  m ≫= f = Raise e → m = Raise e ∨ ∃ a, m = Return a ∧ f a = Raise e.
Proof.
  destruct m as [a|e']; intros H;
    [right; exists a; split; [reflexivity|exact H] | left; by injection H as ->].
Qed.

Lemma mapM_as_str_Raise (l : list value) (e : exn) :
  mapM as_str l = Raise e → e = ValidationError.
Proof.
  induction l as [|v l IH]; cbn; [done|]. intros H.
  apply outcome_bind_Raise in H as [H|(s & _ & H)].
  - destruct v; cbn in H; congruence.
  - apply outcome_bind_Raise in H as [H|(k & _ & H)]; [auto|done].
Qed.

Lemma py_float_Raise (v : value) (e : exn) :
  py_float v = Raise e → conversion_error e.
Proof.
  unfold conversion_error. destruct v; cbn; try (intros [= <-]; auto).
  destruct (float_of_str s); intros [= <-]; auto.
Qed.

Lemma py_int_Raise (v : value) (e : exn) :
  py_int v = Raise e → conversion_error e.
Proof.
  unfold conversion_error. destruct v; cbn; try (intros [= <-]; auto).
  destruct (int_of_str s); intros [= <-]; auto.
Qed.

Lemma as_str_Raise (v : value) (e : exn) :
  as_str v = Raise e → conversion_error e.
Proof. unfold conversion_error. destruct v; cbn; intros [= <-]; auto. Qed.

Lemma as_optional_str_Raise (v : value) (e : exn) :
  as_optional_str v = Raise e → conversion_error e.
Proof. unfold conversion_error. destruct v; cbn; intros [= <-]; auto. Qed.

Lemma as_optional_float_Raise (v : value) (e : exn) :
  as_optional_float v = Raise e → conversion_error e.
Proof. unfold conversion_error. destruct v; cbn; intros [= <-]; auto. Qed.

Lemma as_optional_int_Raise (v : value) (e : exn) :
  as_optional_int v = Raise e → conversion_error e.
Proof. unfold conversion_error. destruct v; cbn; intros [= <-]; auto. Qed.

Lemma as_str_list_Raise (v : value) (e : exn) :
  as_str_list v = Raise e → conversion_error e.
Proof.
  unfold conversion_error. destruct v; cbn; try (intros [= <-]; auto).
  intros H. apply mapM_as_str_Raise in H. auto.
Qed.

Lemma property_out_Raise (d : document) (e : exn) :
  property_out d = Raise e → conversion_error e.
Proof.
  unfold property_out. intros H.
  repeat (apply outcome_bind_Raise in H as [H|(? & _ & H)];
          [ first [ by apply py_float_Raise in H
                  | by apply py_int_Raise in H
                  | by apply as_str_Raise in H
                  | by apply as_optional_str_Raise in H
                  | by apply as_optional_float_Raise in H
                  | by apply as_optional_int_Raise in H
                  | by apply as_str_list_Raise in H ] |]).
  done.
Qed.

(** X1: a document with none of the keys of a view (whatever its [_id]) is
    shown with the defaults: empty texts, price 0, one guest, one bedroom,
    one bathroom, no country, no rating, 0 reviews, no amenities and no
    images. *)
Theorem property_out_defaults (d : document) :
  (∀ k, k ∈ view_fields → d !! k = None) →
  property_out d = Return (default_view (py_str (get "_id" VNone d))).
Proof.
  intros Hmissing. unfold property_out, get.
  assert (Forall (fun k => d !! k = None) view_fields) as Hall
    by (apply Forall_forall; intros k Hk; by apply Hmissing).
  unfold view_fields in Hall. decompose_Forall_hyps.
  repeat match goal with Hk : d !! _ = None |- _ => rewrite Hk; clear Hk end.
  reflexivity.
Qed.

Lemma is_text_get (d : document) (k : string) :
  is_text (d !! k) = true → ∃ t, get k (VStr "") d = VStr t.
Proof. unfold get. destruct (d !! k) as [[]|]; cbn; try done; eauto. Qed.

Lemma is_optional_text_get (d : document) (k : string) :
  is_optional_text (d !! k) = true →
  ∃ t, get k VNone d = from_option VStr VNone t.
Proof.
  unfold get. destruct (d !! k) as [[]|]; cbn; try done; intros _;
    first [by exists None | by eexists (Some _)].
Qed.

Lemma is_number_get (d : document) (k : string) :
  is_number (d !! k) = true →
  ∃ x, py_float (get k (VInt 0) d) = Return x
       ∧ number (get k (VInt 0) d) = Some x.
Proof. unfold get. destruct (d !! k) as [[]|]; cbn; try done; eauto. Qed.

Lemma is_integer_get (d : document) (k : string) :
  is_integer (d !! k) = true → ∃ z, get k (VInt 1) d = VInt z.
Proof. unfold get. destruct (d !! k) as [[]|]; cbn; try done; eauto. Qed.

Lemma is_optional_number_get (d : document) (k : string) :
  is_optional_number (d !! k) = true →
  ∃ r, as_optional_float (get k VNone d) = Return r
       ∧ match r with
         | None => get k VNone d = VNone
         | Some x => number (get k VNone d) = Some x
         end.
Proof.
  unfold get. destruct (d !! k) as [[]|]; cbn; try done; intros _;
    first [by exists None | by eexists (Some _)].
Qed.

Lemma is_optional_integer_get (d : document) (k : string) :
  is_optional_integer (d !! k) = true →
  ∃ c, get k (VInt 0) d = from_option VInt VNone c.
Proof.
  unfold get. destruct (d !! k) as [[]|]; cbn; try done; intros _;
    first [by exists None | by eexists (Some _)].
Qed.

Lemma texts_fmap (l : list value) :
  forallb (fun v => if v is VStr _ then true else false) l = true →
  ∃ k, l = VStr <$> k.
Proof.
  induction l as [|v l IH]; [by exists []|]. cbn.
  intros [Hv Hl]%andb_prop. destruct (IH Hl) as [k ->].
  destruct v; try done. by eexists (_ :: k).
Qed.

Lemma is_texts_get (d : document) (k : string) :
  is_texts (d !! k) = true → ∃ l, get k (VList []) d = VList (VStr <$> l).
Proof.
  unfold get. destruct (d !! k) as [[]|]; cbn; try done.
  - intros [l' ->]%texts_fmap. by exists l'.
  - by exists [].
Qed.

(** The view of a typed document, field by field. *)
Lemma typed_view (d : document) :
  typed d = true →
  ∃ title descr loc ctry price mg bed bath rt rc am img,
    property_out d
    = Return {| out_id := py_str (get "_id" VNone d); out_title := title;
                out_description := descr; out_location := loc;
                out_country := ctry; out_price_per_night := price;
                out_max_guests := mg; out_bedrooms := bed;
                out_bathrooms := bath; out_rating := rt;
                out_review_count := rc; out_amenities := am;
                out_image_urls := img |}
    ∧ get "title" (VStr "") d = VStr title
    ∧ get "description" (VStr "") d = VStr descr
    ∧ get "location" (VStr "") d = VStr loc
    ∧ get "country" VNone d = from_option VStr VNone ctry
    ∧ number (get "price_per_night" (VInt 0) d) = Some price
    ∧ get "max_guests" (VInt 1) d = VInt mg
    ∧ get "bedrooms" (VInt 1) d = VInt bed
    ∧ get "bathrooms" (VInt 1) d = VInt bath
    ∧ match rt with
      | None => get "rating" VNone d = VNone
      | Some x => number (get "rating" VNone d) = Some x
      end
    ∧ get "review_count" (VInt 0) d = from_option VInt VNone rc
    ∧ get "amenities" (VList []) d = VList (VStr <$> am)
    ∧ get "image_urls" (VList []) d = VList (VStr <$> img).
Proof.
  unfold typed. intros H. repeat apply andb_prop in H as [H ?].
  destruct (is_text_get d "title") as [title Etitle]; [done|].
  destruct (is_text_get d "description") as [descr Edescr]; [done|].
  destruct (is_text_get d "location") as [loc Eloc]; [done|].
  destruct (is_optional_text_get d "country") as [ctry Ectry]; [done|].
  destruct (is_number_get d "price_per_night") as (price & Eprice & Nprice);
    [done|].
  destruct (is_integer_get d "max_guests") as [mg Emg]; [done|].
  destruct (is_integer_get d "bedrooms") as [bed Ebed]; [done|].
  destruct (is_integer_get d "bathrooms") as [bath Ebath]; [done|].
  destruct (is_optional_number_get d "rating") as (rt & Ert & Nrt); [done|].
  destruct (is_optional_integer_get d "review_count") as [rc Erc]; [done|].
  destruct (is_texts_get d "amenities") as [am Eam]; [done|].
  destruct (is_texts_get d "image_urls") as [img Eimg]; [done|].
  exists title, descr, loc, ctry, price, mg, bed, bath, rt, rc, am, img.
  split; [|by split_and!].
  unfold property_out.
  rewrite Eprice, Emg, Ebed, Ebath, Etitle, Edescr, Eloc, Ectry, Ert, Erc,
    Eam, Eimg.
  unfold as_str_list. rewrite !mapM_as_str. by destruct ctry, rc.
Qed.

Lemma typed_converts (d : document) :
  typed d = true → ∃ v, property_out d = Return v.
Proof.
  intros Htyped.
  destruct (typed_view d Htyped)
    as (? & ? & ? & ? & ? & ? & ? & ? & ? & ? & ? & ? & Hv & _).
  by eexists.
Qed.

(** X2: a stored property whose fields have the declared types converts,
    and its view shows what is stored: texts, lists and numbers as they
    are, a missing key read as its default, and a key that is present with
    [null] left [null] (a [null] review count does not become 0). *)
Theorem property_out_reflects (d : document) :
  typed d = true →
  ∃ v,
    property_out d = Return v
    ∧ out_id v = py_str (get "_id" VNone d)
    ∧ get "title" (VStr "") d = VStr (out_title v)
    ∧ get "description" (VStr "") d = VStr (out_description v)
    ∧ get "location" (VStr "") d = VStr (out_location v)
    ∧ get "country" VNone d = from_option VStr VNone (out_country v)
    ∧ number (get "price_per_night" (VInt 0) d)
      = Some (out_price_per_night v)
    ∧ get "max_guests" (VInt 1) d = VInt (out_max_guests v)
    ∧ get "bedrooms" (VInt 1) d = VInt (out_bedrooms v)
    ∧ get "bathrooms" (VInt 1) d = VInt (out_bathrooms v)
    ∧ match out_rating v with
      | None => get "rating" VNone d = VNone
      | Some x => number (get "rating" VNone d) = Some x
      end
    ∧ get "review_count" (VInt 0) d
      = from_option VInt VNone (out_review_count v)
    ∧ get "amenities" (VList []) d = VList (VStr <$> out_amenities v)
    ∧ get "image_urls" (VList []) d = VList (VStr <$> out_image_urls v).
Proof.
  intros Htyped.
  destruct (typed_view d Htyped)
    as (title & descr & loc & ctry & price & mg & bed & bath & rt & rc & am
        & img & Hv & Hfields).
  eexists. split; [exact Hv|]. cbn. split; [done|]. exact Hfields.
Qed.

(** ** Looking a property up *)

Lemma respond_Return {A} (c : Z) (render : A → content) (m : App A)
    (db db' : option Database) (a : A) :
  m db = (Return a, db') → respond c render m db = (JSONResponse c (render a), db').
Proof. unfold respond. by intros ->. Qed.

Lemma respond_conversion_error {A} (c : Z) (render : A → content) (m : App A)
    (db db' : option Database) (e : exn) :
  m db = (Raise e, db') → conversion_error e →
  respond c render m db = (ErrorResponse 500 "Internal Server Error", db').
Proof. unfold respond. by intros -> [->| [->| ->]]. Qed.

Lemma get_property_healthy (d : Database) (property_id : string) (o : oid) :
  ObjectId property_id = Some o → healthy 1 d = true →
  get_property property_id (Some d)
  = (match List.find (has_id o) (collection d "property") with
     | None => Raise (HTTPException 404 "Not found")
     | Some doc =>
       if decide (doc = ∅) then Raise (HTTPException 404 "Not found")
       else property_out doc
     end, Some (tick d)).
Proof.
  intros Hid Hok.
  unfold get_property, mbind, App_bind, db_is_None, lift, find_one.
  cbn [fst snd]. rewrite Hid, (driver_call_healthy _ _ Hok). cbn [fst snd].
  rewrite collection_tick.
  destruct (List.find _ _) as [doc|]; [|done]. by destruct (decide (doc = ∅)).
Qed.

(** X3: with a store that answers and an id that parses, the lookup is
    answered 404 "Not found" exactly when no stored property has that id. *)
Theorem get_property_404_iff_absent (d : Database) (property_id : string)
    (o : oid) :
  ObjectId property_id = Some o →
  healthy 1 d = true →
  (handle (GET_property property_id) (Some d)).1
    = ErrorResponse 404 "Not found"
  ↔ ∀ doc, doc ∈ collection d "property" → has_id o doc = false.
Proof.
  intros Hid Hok. cbn [handle]. unfold respond.
  rewrite (get_property_healthy _ _ _ Hid Hok).
  destruct (List.find _ _) as [doc|] eqn:Hfind.
  - apply find_some in Hfind as [Hin Hhas]. apply list_elem_of_In in Hin.
    split; [|intros Habsent; by rewrite (Habsent doc Hin) in Hhas].
    destruct (decide (doc = ∅)) as [->|_]; [done|].
    destruct (property_out doc) as [v|e] eqn:Hout; [done|].
    by apply property_out_Raise in Hout as [->| [->| ->]].
  - split; [|done]. intros _ doc Hin%list_elem_of_In.
    by apply (find_none _ _ Hfind).
Qed.

(** X7: the lookup is answered 200, 404 or 500 and nothing else, and a 404
    always carries the detail "Not found". *)
Theorem get_property_status_codes (db : option Database)
    (property_id : string) :
  let r := (handle (GET_property property_id) db).1 in
  status_code_of r ∈ [200; 404; 500]
  ∧ (status_code_of r = 404 → r = ErrorResponse 404 "Not found").
Proof.
  cbn [handle]. unfold respond, get_property, mbind, App_bind, db_is_None, lift.
  destruct db as [d|]; cbn [fst snd]; [|split; [set_solver|done]].
  destruct (ObjectId property_id) as [o|]; [|split; [set_solver|done]].
  unfold find_one, driver_call.
  destruct (head (faults d)) as [[msg|]|]; cbn [fst snd];
    try (split; [set_solver|done]).
  all: destruct (List.find _ _) as [doc|]; [|split; [set_solver|done]].
  all: destruct (decide (doc = ∅)); [split; [set_solver|done]|].
  all: destruct (property_out doc) as [v|e] eqn:Hout;
    [split; [set_solver|done]|].
  all: apply property_out_Raise in Hout as [->| [->| ->]];
    (split; [set_solver|done]).
Qed.

(** ** Listing *)

Lemma mapM_outcome_Return {A B} (f : A → outcome B) (l : list A) :
  (∀ x, x ∈ l → ∃ y, f x = Return y) →
  ∃ k, mapM f l = Return k ∧ Forall2 (fun x y => f x = Return y) l k.
Proof.
  induction l as [|x l IH]; intros Hall; [by exists []|].
  destruct (Hall x) as [y Hy]; [by left|].
  destruct IH as (k & Hk & Hlk); [intros z Hz; apply Hall; by right|].
  exists (y :: k). split; [|by constructor]. cbn. by rewrite Hy, Hk.
Qed.

Lemma mapM_outcome_Raise {A B} (f : A → outcome B) (l : list A) (x : A)
    (e : exn) :
  x ∈ l → f x = Raise e →
  ∃ x' e', x' ∈ l ∧ f x' = Raise e' ∧ mapM f l = Raise e'.
Proof.
  induction l as [|z l IH]; intros Hin Hx; [by apply elem_of_nil in Hin|].
  destruct (f z) as [y|e'] eqn:Hz.
  - apply elem_of_cons in Hin as [->|Hin]; [congruence|].
    destruct (IH Hin Hx) as (x' & e' & Hin' & Hx' & Hm).
    exists x', e'. split; [by right|]. split; [done|]. cbn. by rewrite Hz, Hm.
  - exists z, e'. split; [by left|]. split; [done|]. cbn. by rewrite Hz.
Qed.

Lemma list_properties_healthy (d : Database) (q location : option string)
    (min_price max_price : option Q) :
  healthy 1 d = true →
  list_properties q location min_price max_price (Some d)
  = (mapM property_out (matched q location min_price max_price d),
     Some (tick d)).
Proof.
  intros Hok.
  unfold list_properties, get_documents, mbind, App_bind, db_is_None, find,
    lift.
  cbn [fst snd]. by rewrite (driver_call_healthy _ _ Hok).
Qed.

Lemma null_number_raises (doc : document) (k : string) :
  k ∈ converted_fields → doc !! k = Some VNone →
  ∃ e, property_out doc = Raise e.
Proof.
  intros Hk Hnull. unfold property_out.
  assert (get k (VInt 0) doc = VNone ∧ get k (VInt 1) doc = VNone)
    as [Hnull0 Hnull1] by (unfold get; by rewrite Hnull).
  apply list_elem_of_In in Hk. cbn in Hk.
  destruct Hk as [<-| [<-| [<-| [<-|[]]]]].
  - rewrite Hnull0. by eexists.
  - rewrite Hnull1. destruct (py_float _); by eexists.
  - rewrite Hnull1. destruct (py_float _); [|by eexists].
    destruct (py_int (get "max_guests" (VInt 1) doc)); by eexists.
  - rewrite Hnull1. destruct (py_float _); [|by eexists].
    destruct (py_int (get "max_guests" (VInt 1) doc)); [|by eexists].
    destruct (py_int (get "bedrooms" (VInt 1) doc)); by eexists.
Qed.

(** X4: the listing is all or nothing: one matched document in which
    [price_per_night], [max_guests], [bedrooms] or [bathrooms] is stored
    as [null] turns the whole response into a 500, whatever the other
    documents are. *)
Theorem list_properties_one_bad_document (d : Database)
    (q location : option string) (min_price max_price : option Q)
    (doc : document) (k : string) :
  healthy 1 d = true →
  doc ∈ matched q location min_price max_price d →
  k ∈ converted_fields →
  doc !! k = Some VNone →
  handle (GET_properties q location min_price max_price) (Some d)
  = (ErrorResponse 500 "Internal Server Error", Some (tick d)).
Proof.
  intros Hok Hin Hk Hnull. cbn [handle].
  destruct (null_number_raises doc k Hk Hnull) as [e Hout].
  destruct (mapM_outcome_Raise property_out _ _ _ Hin Hout)
    as (doc' & e' & _ & Hout' & Hm).
  apply (respond_conversion_error _ _ _ _ _ e').
  - by rewrite (list_properties_healthy _ _ _ _ _ Hok), Hm.
  - by apply property_out_Raise in Hout'.
Qed.

(** X5: when the fields of every matched document have the declared types,
    the listing answers 200 with one view per matched document, in the
    store's order. *)
Theorem list_properties_views (d : Database) (q location : option string)
    (min_price max_price : option Q) :
  healthy 1 d = true →
  (∀ doc, doc ∈ matched q location min_price max_price d →
          typed doc = true) →
  ∃ views,
    handle (GET_properties q location min_price max_price) (Some d)
    = (JSONResponse 200 (PropertyList views), Some (tick d))
    ∧ Forall2 (fun doc v => property_out doc = Return v)
        (matched q location min_price max_price d) views.
Proof.
  intros Hok Htyped. cbn [handle].
  assert (∀ doc, doc ∈ matched q location min_price max_price d →
                 ∃ v, property_out doc = Return v) as Hall
    by (intros doc Hdoc; by apply typed_converts, Htyped).
  destruct (mapM_outcome_Return property_out _ Hall) as (views & Hm & Hviews).
  exists views. split; [|done]. apply respond_Return.
  by rewrite (list_properties_healthy _ _ _ _ _ Hok), Hm.
Qed.

(** ** Reads leave the documents alone *)

Lemma same_documents_refl (db : option Database) : same_documents db db.
Proof. by destruct db. Qed.

Lemma same_documents_trans (db1 db2 db3 : option Database) :
  same_documents db1 db2 → same_documents db2 db3 → same_documents db1 db3.
Proof.
  destruct db1, db2, db3; cbn; try done.
  intros (-> & -> & ->) (-> & -> & ->). done.
Qed.

Lemma preserves_ret {A} (a : A) : preserves (mret a).
Proof. intros db. apply same_documents_refl. Qed.

Lemma preserves_raise {A} (e : exn) : preserves (raise (A := A) e).
Proof. intros db. apply same_documents_refl. Qed.

Lemma preserves_lift {A} (o : outcome A) : preserves (lift o).
Proof. intros db. apply same_documents_refl. Qed.

Lemma preserves_db_is_None : preserves db_is_None.
Proof. intros db. apply same_documents_refl. Qed.

Lemma preserves_bind {A B} (m : App A) (f : A → App B) :
  preserves m → (∀ a, preserves (f a)) → preserves (m ≫= f).
Proof.
  intros Hm Hf db. unfold mbind, App_bind. specialize (Hm db).
  destruct (m db) as [[a|e] db']; [|done].
  eapply same_documents_trans; [exact Hm|apply Hf].
Qed.

Lemma preserves_try_except {A} (body : App A) (handler : exn → App A) :
  preserves body → (∀ e, preserves (handler e)) →
  preserves (try_except body handler).
Proof.
  intros Hm Hf db. unfold try_except. specialize (Hm db).
  destruct (body db) as [[a|e] db']; [done|].
  eapply same_documents_trans; [exact Hm|apply Hf].
Qed.

Lemma preserves_read {A} (f : Database → A) :
  preserves (driver_call (fun d => (f d, d))).
Proof.
  intros [d|]; [|done]. unfold driver_call.
  by destruct (head (faults d)) as [[msg|]|].
Qed.

Lemma preserves_get_property (property_id : string) :
  preserves (get_property property_id).
Proof.
  unfold get_property.
  apply preserves_bind; [apply preserves_db_is_None|]. intros [|];
    [apply preserves_raise|].
  apply preserves_bind; [apply preserves_lift|]. intros o.
  apply preserves_bind; [apply preserves_read|]. intros [doc|];
    [|apply preserves_raise].
  destruct (decide (doc = ∅)); [apply preserves_raise|apply preserves_lift].
Qed.

Lemma preserves_test_database : preserves test_database.
Proof.
  intros [d|]; [|done]. unfold test_database.
  apply preserves_try_except; [|intros; apply preserves_ret].
  apply preserves_bind; [apply preserves_read|]. intros; apply preserves_ret.
Qed.

Lemma preserves_list_properties (q location : option string)
    (min_price max_price : option Q) :
  preserves (list_properties q location min_price max_price).
Proof.
  unfold list_properties, get_documents.
  apply preserves_bind; [apply preserves_db_is_None|]. intros [|];
    [apply preserves_ret|].
  apply preserves_bind; [|intros; apply preserves_lift].
  apply preserves_bind; [apply preserves_db_is_None|]. intros [|];
    [apply preserves_ret|apply preserves_read].
Qed.

(** X6: the lookup of a property, the diagnostics and the liveness route
    never change a document: whatever the state and whatever the driver
    does, the store keeps its name, every collection and its id counter,
    and a missing store stays missing. *)
Theorem lookups_change_no_document (db : option Database)
    (property_id : string) :
  same_documents db (handle (GET_property property_id) db).2
  ∧ same_documents db (handle GET_test db).2
  ∧ same_documents db (handle GET_root db).2.
Proof.
  cbn [handle]. rewrite !respond_state. split_and!.
  - apply preserves_get_property.
  - apply preserves_test_database.
  - apply same_documents_refl.
Qed.

(** X15: the listing never changes a document either. *)
Theorem listing_changes_no_document (db : option Database)
    (q location : option string) (min_price max_price : option Q) :
  same_documents db
    (handle (GET_properties q location min_price max_price) db).2.
Proof. cbn [handle]. rewrite respond_state. apply preserves_list_properties. Qed.

(** ** Diagnostics *)

(** X8: the diagnostics route never fails: it answers 200 in every state,
    says whether a store is configured and under which name, and lists at
    most 10 names, each the name of a collection of the store. *)
Theorem test_database_report (db : option Database) :
  ∃ r,
    (handle GET_test db).1 = JSONResponse 200 (Diagnostics r)
    ∧ backend r = "✅ Running"
    ∧ database_name r = db_name <$> db
    ∧ connection_status r
      = (if db is None then "Not Connected" else "Connected")
    ∧ (length (collection_names r) ≤ 10)%nat
    ∧ ∀ c, c ∈ collection_names r →
           ∃ d, db = Some d ∧ is_Some (collections d !! c).
Proof.
  cbn [handle]. unfold respond, test_database.
  destruct db as [d|];
    [|eexists; split_and!; try done; cbn; [lia|intros c Hc; by apply elem_of_nil in Hc]].
  unfold try_except, mbind, App_bind, list_collection_names, driver_call.
  destruct (head (faults d)) as [[msg|]|]; cbn [fst snd mret App_ret];
    eexists; (split; [reflexivity|]); cbn;
    (split_and!; try done).
  all: try lia.
  all: try (rewrite length_take; lia).
  all: intros c Hc; try (by apply elem_of_nil in Hc).
  all: apply elem_of_take in Hc as (i & Hc%list_elem_of_lookup_2 & _);
       exists d; split; [done|];
       apply list_elem_of_fmap in Hc as [[c' docs] [-> Hc]];
       apply elem_of_map_to_list in Hc; by eexists.
Qed.

Lemma substring_prefix (n : nat) (s : string) :
  String.prefix (String.substring 0 n s) s = true.
Proof.
  revert s. induction n as [|n IH]; intros [|c s]; cbn; try done.
  destruct (Ascii.ascii_dec c c); [apply IH|done].
Qed.

(** X17: when the driver fails while the collections are listed, the
    diagnostics route still answers 200: it reports the store as connected,
    no collection name, and under [database] the text "❌ Error: " followed
    by a prefix of the driver's message. *)
Theorem test_database_driver_failure (d : Database) (msg : string) :
  head (faults d) = Some (Some msg) →
  ∃ r shown,
    handle GET_test (Some d) = (JSONResponse 200 (Diagnostics r), Some (tick d))
    ∧ database r = "❌ Error: " +:+ shown
    ∧ String.prefix shown msg = true
    ∧ connection_status r = "Connected"
    ∧ database_name r = Some (db_name d)
    ∧ collection_names r = [].
Proof.
  intros Hfault. cbn [handle].
  unfold respond, test_database, try_except, mbind, App_bind,
    list_collection_names, driver_call.
  rewrite Hfault. cbn [fst snd mret App_ret].
  eexists; exists (String.substring 0 50 msg). split; [reflexivity|]. cbn.
  split_and!; try done. apply substring_prefix.
Qed.

(** ** More on the filter, the lookup and the seeder *)

(** X14: the filter is empty, so that the store is asked for every
    property, exactly when [q] and [location] are absent or empty and no
    price bound is given. *)
Theorem filter_dict_empty_iff (q location : option string)
    (min_price max_price : option Q) :
  filter_dict q location min_price max_price = ∅
  ↔ truthy q = false ∧ truthy location = false
    ∧ min_price = None ∧ max_price = None.
Proof.
  destruct q as [[|a q]|], location as [[|b l]|],
    min_price as [lo|], max_price as [hi|];
    (split;
     [ intros H; apply (f_equal size) in H; vm_compute in H;
       first [discriminate H | by repeat split]
     | intros (Hq & Hl & Hlo & Hhi);
       first [discriminate Hq | discriminate Hl | discriminate Hlo
             | discriminate Hhi | reflexivity] ]).
Qed.

Lemma find_first (o : oid) (before after : list document) (doc : document) :
  (∀ x, x ∈ before → has_id o x = false) → has_id o doc = true →
  List.find (has_id o) (before ++ doc :: after) = Some doc.
Proof.
  intros Hbefore Hdoc. induction before as [|x before IH]; cbn.
  - by rewrite Hdoc.
  - rewrite Hbefore by left. apply IH. intros y Hy. apply Hbefore. by right.
Qed.

(** X16: with a store that answers, the lookup of an id is answered with
    the view of the first stored property that has this id, when the
    fields of that document have the declared types. *)
Theorem get_property_found (d : Database) (property_id : string) (o : oid)
    (before after : list document) (doc : document) (v : PropertyOut) :
  ObjectId property_id = Some o →
  healthy 1 d = true →
  collection d "property" = before ++ doc :: after →
  (∀ x, x ∈ before → has_id o x = false) →
  has_id o doc = true →
  typed doc = true →
  property_out doc = Return v →
  handle (GET_property property_id) (Some d)
  = (JSONResponse 200 (PropertyView v), Some (tick d)).
Proof.
  intros Hid Hok Hcoll Hbefore Hdoc _ Hout. cbn [handle].
  apply respond_Return. rewrite (get_property_healthy _ _ _ Hid Hok), Hcoll.
  rewrite (find_first _ _ _ _ Hbefore Hdoc).
  destruct (decide (doc = ∅)) as [->|_]; [done|]. by rewrite Hout.
Qed.

Lemma seed_non_empty (d : Database) :
  collection d "property" ≠ [] →
  ∃ d', (seed_sample_properties (Some d)).2 = Some d'
        ∧ collections d' = collections d.
Proof.
  intros Hsome.
  unfold seed_sample_properties, mbind, App_bind, try_except, db_is_None.
  cbn [fst snd]. unfold count_documents, driver_call.
  destruct (head (faults d)) as [[msg|]|]; cbn [fst snd];
    [by eexists| |];
    (rewrite collection_tick;
     destruct (collection d "property"); [done|]; by eexists).
Qed.

Lemma seed_empty_healthy (d : Database) :
  collection d "property" = [] → healthy 2 d = true →
  ∃ d', (seed_sample_properties (Some d)).2 = Some d'
        ∧ length (collection d' "property") = 3%nat.
Proof.
  intros Hempty Hok. apply healthy_tick in Hok as [Hok1 Hok2].
  unfold seed_sample_properties, mbind, App_bind, try_except, db_is_None.
  cbn [fst snd]. unfold count_documents, insert_many.
  rewrite (driver_call_healthy _ _ Hok1). cbn [fst snd].
  rewrite collection_tick, Hempty. cbn [length Nat.eqb samples].
  rewrite (driver_call_healthy _ _ Hok2). cbn [fst snd mret App_ret].
  eexists; split; [done|].
  by rewrite collection_store_eq, !collection_tick, Hempty.
Qed.

(** X13: seeding is idempotent: after a run whose driver calls succeed the
    [property] collection is not empty, and a second run, whatever the
    driver does then, changes no collection. *)
Theorem seed_sample_properties_twice (d : Database) :
  healthy 2 d = true →
  ∃ d1 d2,
    (seed_sample_properties (Some d)).2 = Some d1
    ∧ (seed_sample_properties (Some d1)).2 = Some d2
    ∧ collection d1 "property" ≠ []
    ∧ collections d2 = collections d1.
Proof.
  intros Hok.
  assert (∃ d1, (seed_sample_properties (Some d)).2 = Some d1
                ∧ collection d1 "property" ≠ []) as (d1 & Hd1 & Hsome).
  { destruct (collection d "property") as [|doc docs] eqn:Hcoll.
    - destruct (seed_empty_healthy d Hcoll Hok) as (d1 & Hd1 & Hlen).
      exists d1. split; [done|]. intros Hnil. by rewrite Hnil in Hlen.
    - destruct (seed_non_empty d) as (d1 & Hd1 & Hsame);
        [by rewrite Hcoll|].
      exists d1. split; [done|]. unfold collection in *.
      by rewrite Hsame, Hcoll. }
  destruct (seed_non_empty d1 Hsome) as (d2 & Hd2 & Hsame).
  by exists d1, d2.
Qed.

End Properties.

(** * The statements at work *)

#[local] Existing Instance sample_runtime.

(** The listing after startup on an empty store shows the three samples,
    under the ids the driver gave them. *)
Example listing_after_startup :
  (fun r => if r is JSONResponse 200 (PropertyList l)
            then Some ((fun p => (out_id p, out_title p)) <$> l) else None)
    (handle (GET_properties None None None None)
       (seed_sample_properties (Some empty_store)).2).1
  = Some [ ("000000000000000000000000", "Cozy Mountain Hut");
           ("000000000000000000000001", "Lakeside Cabin Retreat");
           ("000000000000000000000002", "Nordic Forest Lodge") ].
Proof. reflexivity. Qed.

(** An id that parses and is not stored is answered 404. *)
Example get_property_absent :
  (handle (GET_property "00000000000000000000002a") (Some empty_store)).1
  = ErrorResponse 404 "Not found".
Proof. reflexivity. Qed.


(** C2: with a store connection, the id ["not-an-object-id"], which
    [ObjectId] rejects, is answered with 500 and not 404. *)
Theorem get_property_unparsable_id :
  ObjectId "not-an-object-id" = None
  ∧ handle (GET_property "not-an-object-id") (Some empty_store)
    = (ErrorResponse 500 "Internal Server Error", Some empty_store).
Proof. split; reflexivity. Qed.

Lemma seed_sample_properties_on_empty_store :
  (∃ d', (seed_sample_properties (Some empty_store)).2 = Some d'
         ∧ delete "_id" <$> collection d' "property" = samples
         ∧ ∀ c, c ≠ "property" → collection d' c = collection empty_store c)
  ∧ (∃ d', (seed_sample_properties (Some failing_store)).2 = Some d'
           ∧ collections d' = collections failing_store
           ∧ generated d' = generated failing_store
           ∧ faults d' = drop 1 (faults failing_store)).
Proof.
  split.
  - apply (proj1 (proj2 (proj2 (seed_sample_properties_spec empty_store))));
      reflexivity.
  - apply (proj1 (proj2 (proj2 (proj2 (proj2
             (seed_sample_properties_spec failing_store)))))
             "connection refused").
    reflexivity.
Defined.

Lemma create_then_get_test_property :
  ∃ id d1 d2 prop,
    handle (POST_properties test_property) (Some empty_store)
    = (JSONResponse 201 (InsertedId id), Some d1)
    ∧ handle (GET_property id) (Some d1)
      = (JSONResponse 200 (PropertyView (view_of id prop)), Some d2)
    ∧ filled test_property prop.
Proof.
  destruct (create_then_get empty_store test_property
              {| title := "Test"; description := "d"; location := "X";
                 country := None; price_per_night := 100 # 1;
                 max_guests := 2; bedrooms := 1; bathrooms := 1;
                 rating := None; review_count := Some 0; amenities := [];
                 image_urls := [] |})
    as (id & d1 & d2 & Hpost & Hget & Hfilled);
    [reflexivity | reflexivity | reflexivity
    | intros doc Hdoc; inversion Hdoc |].
  by exists id, d1, d2; eexists.
Defined.

Lemma out_of_range_examples :
  (status_code_of (handle (POST_properties negative_price)
                     (Some empty_store)).1 = 422
   ∧ (handle (POST_properties negative_price) (Some empty_store)).2
     = Some empty_store)
  ∧ (status_code_of (handle (POST_bookings no_guests)
                       (Some empty_store)).1 = 422
     ∧ (handle (POST_bookings no_guests) (Some empty_store)).2
       = Some empty_store).
Proof.
  split.
  - apply (proj1 (out_of_range_is_unprocessable (Some empty_store))
             negative_price (-1 # 1)%Q); reflexivity.
  - apply (proj2 (out_of_range_is_unprocessable (Some empty_store))
             no_guests 0); [reflexivity | lia].
Defined.

Lemma invariant_after_startup_and_create :
  ∃ created,
    properties
      (handle (POST_properties test_property)
         (seed_sample_properties (Some empty_store)).2).2
    = properties (Some empty_store) ++ created
    ∧ Forall (fun doc => property_invariant doc = true) created.
Proof.
  apply created_properties_invariant.
  apply reachable_request, reachable_startup.
Defined.

Lemma backwards_booking_accepted :
  ∃ d',
    handle (POST_bookings backwards_booking) (Some empty_store)
    = (JSONResponse 201
         (BookingReceived "000000000000000000000000" "received"), Some d')
    ∧ collection d' "booking"
      = [ {[ "_id" := VObjectId 0%N;
             "property_id" := VStr "no-such-property";
             "name" := VStr "Ada";
             "email" := VStr "ada@example.org";
             "phone" := VNone;
             "check_in" := VDate (Date 2025 7 10);
             "check_out" := VDate (Date 2025 7 1);
             "guests" := VInt 2;
             "message" := VNone ]} ]
    ∧ ∀ c, c ≠ "booking" → collection d' c = collection empty_store c.
Proof.
  destruct (create_booking_accepts empty_store backwards_booking
              "no-such-property" "Ada" "ada@example.org"
              (Date 2025 7 10) (Date 2025 7 1) 2)
    as (d' & Hresponse & Hstored & Hothers); try reflexivity; [lia|].
  exists d'. split; [exact Hresponse|]. split; [|exact Hothers].
  rewrite Hstored. reflexivity.
Defined.

Lemma bare_document_view :
  property_out bare_document
  = Return (default_view (py_str (get "_id" VNone bare_document))).
Proof.
  apply property_out_defaults. intros k Hk.
  apply list_elem_of_In in Hk. cbn in Hk.
  repeat (destruct Hk as [<-|Hk]; [reflexivity|]). done.
Defined.

Lemma hut_review_count_stays_null :
  ∃ v, property_out hut = Return v
       ∧ get "title" (VStr "") hut = VStr (out_title v)
       ∧ number (get "price_per_night" (VInt 0) hut)
         = Some (out_price_per_night v)
       ∧ VNone = from_option VInt VNone (out_review_count v).
Proof.
  destruct (property_out_reflects hut eq_refl)
    as (v & Hv & _ & Htitle & _ & _ & _ & Hprice & _ & _ & _ & _ & Hcount
        & _).
  exists v. split; [exact Hv|]. split; [exact Htitle|].
  split; [exact Hprice|exact Hcount].
Defined.

Lemma absent_id_is_not_found :
  (handle (GET_property "00000000000000000000002a") (Some hut_store)).1
    = ErrorResponse 404 "Not found"
  ↔ ∀ doc, doc ∈ collection hut_store "property" → has_id 42%N doc = false.
Proof.
  apply (get_property_404_iff_absent hut_store
           "00000000000000000000002a" 42%N); reflexivity.
Defined.

Lemma shed_breaks_the_listing :
  handle (GET_properties None None None None) (Some shed_store)
  = (ErrorResponse 500 "Internal Server Error", Some (tick shed_store)).
Proof.
  apply (list_properties_one_bad_document shed_store None None None None
           shed "price_per_night"); [reflexivity| | |reflexivity].
  - apply list_elem_of_In. right. left. reflexivity.
  - apply list_elem_of_In. left. reflexivity.
Defined.

Lemma hut_store_listing :
  ∃ views,
    handle (GET_properties None None None None) (Some hut_store)
    = (JSONResponse 200 (PropertyList views), Some (tick hut_store))
    ∧ Forall2 (fun doc v => property_out doc = Return v)
        (matched None None None None hut_store) views.
Proof.
  apply list_properties_views; [reflexivity|].
  intros doc Hdoc. apply list_elem_of_In in Hdoc.
  destruct Hdoc as [<-|[]]. reflexivity.
Defined.

Lemma hut_is_found :
  handle (GET_property "000000000000000000000001") (Some hut_store)
  = (JSONResponse 200 (PropertyView hut_view), Some (tick hut_store)).
Proof.
  apply (get_property_found hut_store "000000000000000000000001" 1%N
           [] [] hut hut_view); try reflexivity.
  intros x Hx. by apply elem_of_nil in Hx.
Defined.

Lemma seeding_the_empty_store_twice :
  ∃ d1 d2,
    (seed_sample_properties (Some empty_store)).2 = Some d1
    ∧ (seed_sample_properties (Some d1)).2 = Some d2
    ∧ collection d1 "property" ≠ []
    ∧ collections d2 = collections d1.
Proof. apply seed_sample_properties_twice. reflexivity. Defined.

Lemma diagnostics_of_a_failing_store :
  ∃ r shown,
    handle GET_test (Some failing_store)
    = (JSONResponse 200 (Diagnostics r), Some (tick failing_store))
    ∧ database r = "❌ Error: " +:+ shown
    ∧ String.prefix shown "connection refused" = true
    ∧ connection_status r = "Connected"
    ∧ database_name r = Some (db_name failing_store)
    ∧ collection_names r = [].
Proof.
  apply (test_database_driver_failure failing_store "connection refused").
  reflexivity.
Defined.
